(** * HabitFlowAI maintenance scripts: a shallow embedding

    The repository holds three one-shot Python scripts that patch a
    TypeScript source file in place:

    - [clean_habit_modal.py]  : regex/replace passes, a marker-pair cut,
                                a blank-line clean-up, an unconditional write;
    - [clean_tracker_grid.py] : regex passes, a marker-pair cut, a line scan
                                with a [skip] flag, then a re-read of the file
                                and a single guarded cut and write;
    - [fix_tracker_grid.py]   : a line search for a cut-off line, and a
                                rewrite of everything below it.

    Text is modelled as [list ascii] (code points below 256), Python [int]
    as [Z], and the file system as one target file inside a [world] that
    also records every write and every printed line.  The text of the
    file is what Python reads from it in text mode. *)

From Stdlib Require Import Ascii String DecimalString.
From Stdlib Require Import List ZArith Lia Bool Arith.
Import ListNotations.

Local Open Scope Z_scope.

(** ** Text *)

Definition str := list ascii.

Definition lit (s : string) : str := list_ascii_of_string s.

(** The newline character, written ['\n'] in the sources. *)
Definition nl : ascii := "010"%char.

(** The double quote, which occurs in the text of [new_bottom]. *)
Definition dq : ascii := "034"%char.

(** Lines of text, each closed by a newline. *)
Definition text (ls : list string) : str :=
  concat (map (fun l => lit l ++ [nl]) ls).

Definition len {A} (s : list A) : Z := Z.of_nat (length s).

(** ** The Python primitives the scripts use *)

Module Py.

(** [Py_UNICODE_ISSPACE] restricted to code points below 256: what
    [str.strip()] removes and what [\s] matches in a [str] pattern. *)
Definition isspace (c : ascii) : bool :=
  let n := nat_of_ascii c in
  ((9 <=? n) && (n <=? 13) || (28 <=? n) && (n <=? 32)
   || (n =? 133) || (n =? 160))%nat.

(** [s.startswith(sub)] *)
Fixpoint startswith (sub s : str) : bool :=
  match sub, s with
  | [], _ => true
  | _ :: _, [] => false
  | a :: sub', b :: s' => Ascii.eqb a b && startswith sub' s'
  end.

(** The left-to-right search behind [s.find(sub)]: [i] is the offset of [s]
    in the whole text. *)
Fixpoint find_at (sub s : str) (i : Z) : Z :=
  if startswith sub s then i
  else match s with
       | [] => -1
       | _ :: s' => find_at sub s' (i + 1)
       end.

(** [s.find(sub)]: the lowest offset at which [sub] occurs, or [-1]. *)
Definition find (s sub : str) : Z := find_at sub s 0.

(** [sub in s] *)
Definition isin (sub s : str) : bool := negb (find s sub =? -1).

(** [s[:i]], for any Python [int] (a negative one counts from the end). *)
Definition slice_to {A} (s : list A) (i : Z) : list A :=
  firstn (Z.to_nat (if i <? 0 then len s + i else i)) s.

(** [s[i:]] *)
Definition slice_from {A} (s : list A) (i : Z) : list A :=
  skipn (Z.to_nat (if i <? 0 then len s + i else i)) s.

(** One left-to-right scan that replaces what [m] matches.  [m s] is the
    length of the match that starts at the head of [s], if there is one;
    [skip] counts the characters of the current match still to be dropped.
    An empty match is replaced and the scan moves on by one character, as
    [re.sub] and [str.replace] do. *)
Fixpoint scan_replace (m : str -> option nat) (repl : str)
    (skip : nat) (s : str) : str :=
  match s with
  | [] =>
      match skip, m [] with
      | O, Some _ => repl
      | _, _ => []
      end
  | c :: s' =>
      match skip with
      | S k => scan_replace m repl k s'
      | O =>
          match m s with
          | Some (S k) => repl ++ scan_replace m repl k s'
          | Some O => repl ++ c :: scan_replace m repl O s'
          | None => c :: scan_replace m repl O s'
          end
      end
  end.

(** [s.replace(old, new)] *)
Definition replace (s old new : str) : str :=
  scan_replace
    (fun t => if startswith old t then Some (length old) else None)
    new O s.

(** [s.split('\n')]: the pieces between newlines; never empty. *)
Fixpoint split_nl (s : str) : list str :=
  match s with
  | [] => [[]]
  | c :: s' =>
      if Ascii.eqb c nl then [] :: split_nl s'
      else match split_nl s' with
           | [] => [[c]]
           | l :: ls => (c :: l) :: ls
           end
  end.

(** [f.readlines()]: the lines with their newline kept; the last line may
    lack one; an empty file has no line. *)
Fixpoint readlines (s : str) : list str :=
  match s with
  | [] => []
  | c :: s' =>
      if Ascii.eqb c nl then [c] :: readlines s'
      else match readlines s' with
           | [] => [[c]]
           | l :: ls => (c :: l) :: ls
           end
  end.

(** [s.lstrip()], and [s.strip()] through a reversal. *)
Fixpoint lstrip (s : str) : str :=
  match s with
  | [] => []
  | c :: s' => if isspace c then lstrip s' else s
  end.

Definition strip (s : str) : str := rev (lstrip (rev (lstrip s))).

(** ["".join(ls)] *)
Definition join (ls : list str) : str := concat ls.

End Py.

(** ** The fragment of Python's [re] the scripts use

    Every pattern of the scripts is a sequence of single-character items:
    a literal, a negated one-character class ([[^}]], [[^;]]) or [\s], each
    taken once or under [*], [+] or the lazy [+?].  [re] matches by
    backtracking, trying the alternatives of a quantifier in its order of
    preference; [match_here] does the same.  No pattern holds a [.], so
    [re.DOTALL] changes nothing. *)

Module Re.

Inductive atom : Type :=
| Chr (c : ascii)        (* a literal character *)
| NotChr (c : ascii)     (* [^c] *)
| Space.                 (* \s *)

Inductive quant : Type :=
| One | Star | Plus | PlusLazy.

Definition regex := list (atom * quant).

Definition accepts (a : atom) (c : ascii) : bool :=
  match a with
  | Chr x => Ascii.eqb x c
  | NotChr x => negb (Ascii.eqb x c)
  | Space => Py.isspace c
  end.

(** [a*] followed by [k], greedy: the longest run first. *)
Fixpoint star (a : atom) (k : str -> option nat) (s : str) : option nat :=
  match s with
  | c :: s' =>
      if accepts a c then
        match star a k s' with
        | Some n => Some (S n)
        | None => k s
        end
      else k s
  | [] => k s
  end.

(** [a+?] followed by [k], lazy: the shortest run first. *)
Fixpoint plus_lazy (a : atom) (k : str -> option nat) (s : str) : option nat :=
  match s with
  | c :: s' =>
      if accepts a c then
        match k s' with
        | Some n => Some (S n)
        | None => option_map S (plus_lazy a k s')
        end
      else None
  | [] => None
  end.

(** One mandatory character, then [k]. *)
Definition one (a : atom) (k : str -> option nat) (s : str) : option nat :=
  match s with
  | c :: s' => if accepts a c then option_map S (k s') else None
  | [] => None
  end.

(** The length of the match of [r] at the head of [s], if any. *)
Fixpoint match_here (r : regex) (s : str) : option nat :=
  match r with
  | [] => Some O
  | (a, One) :: r' => one a (match_here r') s
  | (a, Star) :: r' => star a (match_here r') s
  | (a, Plus) :: r' => one a (star a (match_here r')) s
  | (a, PlusLazy) :: r' => plus_lazy a (match_here r') s
  end.

(** A literal piece of a pattern. *)
Definition chars (s : string) : regex := map (fun c => (Chr c, One)) (lit s).

(** [re.sub(pattern, repl, s)] *)
Definition sub (pattern : regex) (repl s : str) : str :=
  Py.scan_replace (match_here pattern) repl O s.

End Re.

(** ** The world of a script run *)

Record world : Type := World {
  file : str;              (* the text of [target_file] *)
  writes : list str;       (* every text written to it, oldest first *)
  stdout : list str        (* every line printed, oldest first *)
}.

(** A run either goes on with a value or has left through [exit(code)]. *)
Inductive result (A : Type) : Type :=
| Ret (a : A)
| Exited (code : Z).
Arguments Ret {A} a.
Arguments Exited {A} code.

Definition script (A : Type) : Type := world -> result A * world.

Definition ret {A} (a : A) : script A := fun w => (Ret a, w).

Definition bind {A B} (c : script A) (k : A -> script B) : script B :=
  fun w =>
    match c w with
    | (Ret a, w') => k a w'
    | (Exited code, w') => (Exited code, w')
    end.

Notation "x <- c ;; k" := (bind c (fun x => k))
  (at level 61, c at next level, right associativity).
Notation "c ;;; k" := (bind c (fun _ => k))
  (at level 61, right associativity).

(** [open(target_file).read()] *)
Definition read_file : script str := fun w => (Ret (file w), w).

(** [open(target_file, 'w')] followed by [f.write(s)] *)
Definition write_file (s : str) : script unit :=
  fun w => (Ret tt, World s (writes w ++ [s]) (stdout w)).

(** [print(s)] *)
Definition print (s : str) : script unit :=
  fun w => (Ret tt, World (file w) (writes w) (stdout w ++ [s])).

(** [exit(code)] *)
Definition exit {A} (code : Z) : script A := fun w => (Exited code, w).

(** A run of a script on a target file holding [c]. *)
Definition start (c : str) : world := World c [] [].

Definition run (p : script unit) (c : str) : result unit * world :=
  p (start c).

(** Unfolds the steps of a script run. *)
Ltac script_steps :=
  unfold run, start, bind, ret, read_file, write_file, print, exit; simpl.

(** ** The marker-pair cut

    The same four lines stand in [clean_habit_modal.py] (38-45) and twice in
    [clean_tracker_grid.py] (30-38 and 100-104):
<<
    s_idx = content.find(start_marker)
    e_idx = content.find(end_marker)
    if s_idx != -1 and e_idx != -1:
        content = content[:s_idx] + content[e_idx:]
>>
    [marker_cut] is [None] on the [else] branch. *)

Definition marker_cut (start_marker end_marker content : str) : option str :=
  let start_idx := Py.find content start_marker in
  let end_idx := Py.find content end_marker in
  if negb (start_idx =? -1) && negb (end_idx =? -1) then
    Some (Py.slice_to content start_idx ++ Py.slice_from content end_idx)
  else None.

(** Equality of two texts, [==] on [str]. *)
Fixpoint str_eqb (a b : str) : bool :=
  match a, b with
  | [], [] => true
  | x :: a', y :: b' => Ascii.eqb x y && str_eqb a' b'
  | _, _ => false
  end.

(** ** clean_habit_modal.py *)

Module CleanHabitModal.

(** Line 12: [const toggleAssignedDay = \(dayIndex: number\) => \{[^}]+\};] *)
Definition pat_toggleAssignedDay : Re.regex :=
  Re.chars "const toggleAssignedDay = (dayIndex: number) => {"
  ++ [(Re.NotChr "}", Re.Plus)] ++ Re.chars "};".

(** Line 15: the pattern is a literal once its escapes are read. *)
Definition pat_daysOfWeek : Re.regex :=
  Re.chars "const daysOfWeek = ['S', 'M', 'T', 'W', 'T', 'F', 'S'];".

(** Line 22: the [else if] branch up to its closing brace. *)
Definition pat_assignedDays_branch : Re.regex :=
  Re.chars "} else if (frequency === 'weekly' && goalType === 'boolean' && assignedDays.length > 0) {"
  ++ [(Re.NotChr "}", Re.Plus)] ++ Re.chars "}".

(** Line 48: [\n\s*\n\s*\n] *)
Definition pat_blank_lines : Re.regex :=
  [(Re.Chr nl, Re.One); (Re.Space, Re.Star); (Re.Chr nl, Re.One);
   (Re.Space, Re.Star); (Re.Chr nl, Re.One)].

Definition start_marker : str :=
  lit "{/* 3. Specific Configuration based on Weekly/Type (Only if Regular or Weekly Bundle) */}".

Definition end_marker : str :=
  lit "{/* 4. Configuration for Daily/Total (Legacy support mostly) */}".

(** Lines 47-48, "Clean up empty lines created". *)
Definition cleanup_blank_lines (content : str) : str :=
  Re.sub pat_blank_lines [nl; nl] content.

(** Lines 10-29: the three [re.sub] and the two [replace] passes. *)
Definition early_passes (content : str) : str :=
  let content := Re.sub pat_toggleAssignedDay [] content in
  let content := Re.sub pat_daysOfWeek [] content in
  let content := Re.sub pat_assignedDays_branch [] content in
  let content :=
    Py.replace content
      (lit "assignedDays: frequency === 'daily' ? assignedDays : undefined,")
      (lit "assignedDays: undefined,") in
  Py.replace content
    (lit "assignedDays: frequency === 'weekly' ? assignedDays : undefined,")
    (lit "assignedDays: undefined,").

(** Lines 38-45: the cut between the two markers, or the message. *)
Definition cut_weekly_config (content : str) : script str :=
  match marker_cut start_marker end_marker content with
  | Some content' => ret content'
  | None =>
      print (lit "Could not find Old Weekly Config Block markers") ;;;
      ret content
  end.

(** The whole script. *)
Definition main : script unit :=
  content <- read_file ;;
  let content := early_passes content in
  content <- cut_weekly_config content ;;
  let content := cleanup_blank_lines content in
  write_file content ;;;
  print (lit "Successfully cleaned AddHabitModal.tsx").

End CleanHabitModal.

(** ** clean_tracker_grid.py *)

Module CleanTrackerGrid.

(** Line 14: [const WeeklyHabitRowContent = \(\{[^;]+?\n\};] *)
Definition pat_WeeklyHabitRowContent : Re.regex :=
  Re.chars "const WeeklyHabitRowContent = ({"
  ++ [(Re.NotChr ";", Re.PlusLazy); (Re.Chr nl, Re.One)] ++ Re.chars "};".

(** Line 17: [const handleOpenChoiceLog = [^;]+?\n\s*\};] *)
Definition pat_handleOpenChoiceLog : Re.regex :=
  Re.chars "const handleOpenChoiceLog = "
  ++ [(Re.NotChr ";", Re.PlusLazy); (Re.Chr nl, Re.One); (Re.Space, Re.Star)]
  ++ Re.chars "};".

Definition start_marker : str := lit "const WeeklyHabitRowContent = ({".

Definition end_marker : str :=
  lit "// SortableWeeklyHabitRow removed/commented out".

Definition log_marker : str := lit "const handleOpenChoiceLog =".

(** Lines 64-89, the body of [for line in lines]: the state is
    [(new_lines, skip)]. *)
Definition scan_step (st : list str * bool) (line : str) : list str * bool :=
  let '(new_lines, skip) := st in
  let skip := if Py.isin start_marker line then true else skip in
  let skip := if Py.isin end_marker line && skip then false else skip in
  let skip := if Py.isin log_marker line then true else skip in
  let new_lines := if negb skip then new_lines ++ [line] else new_lines in
  let skip :=
    if skip && str_eqb (Py.strip line) (lit "};") then false else skip in
  (new_lines, skip).

(** Lines 61-89: the loop, from [new_lines = []] and [skip = False]. *)
Definition line_scan (lines : list str) : list str * bool :=
  fold_left scan_step lines ([], false).

(** Lines 60-95: the scan fills [new_lines], and [content] is then joined
    from [lines], not from [new_lines]. *)
Definition line_pass (content : str) : str :=
  let lines := Py.split_nl content in
  let '(new_lines, skip) := line_scan lines in
  Py.join (map (fun l => l ++ [nl]) lines).

(** Lines 14-95: everything the script does to [content].  Lines 45-57
    search for [log_marker] once more and bind [start_log], which nothing
    reads. *)
Definition content_passes (content : str) : script str :=
  let content := Re.sub pat_WeeklyHabitRowContent [] content in
  let content := Re.sub pat_handleOpenChoiceLog [] content in
  content <-
    match marker_cut start_marker end_marker content with
    | Some content' => ret content'
    | None =>
        print (lit "Could not find WeeklyHabitRowContent markers") ;;;
        ret content
    end ;;
  ret (line_pass content).

(** The whole script: [content] is computed and dropped; the file is read
    again and cut once (lines 99-112). *)
Definition main : script unit :=
  content <- read_file ;;
  content <- content_passes content ;;
  original_content <- read_file ;;
  match marker_cut start_marker end_marker original_content with
  | Some original_content' =>
      write_file original_content' ;;;
      print (lit "Removed WeeklyHabitRowContent")
  | None => print (lit "Markers not found for WeeklyHabitRowContent")
  end.

End CleanTrackerGrid.

(** ** fix_tracker_grid.py *)

Module FixTrackerGrid.

Definition marker_spaced : str :=
  lit "{/* Weekly Habits Section - Redesigned as Cards */ }".

Definition marker_tight : str :=
  lit "{/* Weekly Habits Section - Redesigned as Cards */}".

Definition fallback_text : str := lit "weeklyHabits.length > 0".

(** Lines 10-17: the first line that holds either spelling of the marker;
    [cutoff_index] stays [-1] when the loop ends without a [break]. *)
Fixpoint search_marker (lines : list str) (i : Z) : Z :=
  match lines with
  | [] => -1
  | line :: rest =>
      if Py.isin marker_spaced line then i
      else if Py.isin marker_tight line then i
      else search_marker rest (i + 1)
  end.

(** Lines 22-25: the fallback, one line above the first match below
    line 1200. *)
Fixpoint search_fallback (lines : list str) (i : Z) : Z :=
  match lines with
  | [] => -1
  | line :: rest =>
      if Py.isin fallback_text line && (1200 <? i) then i - 1
      else search_fallback rest (i + 1)
  end.

(** Lines 9-29: the cut-off line, or [exit(1)]. *)
Definition find_cutoff (lines : list str) : script Z :=
  let cutoff_index := search_marker lines 0 in
  if cutoff_index =? -1 then
    print (lit "Could not find cutoff point") ;;;
    let cutoff_index := search_fallback lines 0 in
    if cutoff_index =? -1 then
      print (lit "Really could not find cutoff") ;;;
      exit 1
    else ret cutoff_index
  else ret cutoff_index.

Definition q : string := String dq EmptyString.

Definition new_bottom : str := text [
  "";
  "                    {weeklyHabits.length > 0 && (";
  ("                        <div className=" ++ q ++ "flex flex-col border-t border-white/5 mt-8 pt-8" ++ q ++ ">");
  ("                             <div className=" ++ q ++ "px-6 mb-6" ++ q ++ ">");
  ("                                <h3 className=" ++ q ++ "text-lg font-medium text-emerald-400 flex items-center gap-2" ++ q ++ ">");
  "                                    <span>Weekly Progress</span>";
  ("                                    <span className=" ++ q ++ "text-xs text-neutral-500 font-normal px-2 py-0.5 rounded-full bg-neutral-800 border border-white/5" ++ q ++ ">Resets Monday</span>");
  "                                </h3>";
  "                            </div>";
  "                            ";
  ("                            <div className=" ++ q ++ "grid grid-cols-1 md:grid-cols-2 lg:grid-cols-3 gap-4 px-6" ++ q ++ ">");
  "                                {weeklyHabits.map(habit => (";
  "                                    <WeeklyHabitCard";
  "                                        key={habit.id}";
  "                                        habit={habit}";
  "                                        logs={logs}";
  "                                        goals={progressData?.goalsWithProgress.map(g => g.goal)}";
  "                                        potentialEvidence={potentialEvidence?.some(e => e.habitId === habit.id)}";
  "                                        onToggle={(h) => handleToggle(h.id, format(new Date(), 'yyyy-MM-dd'))}";
  "                                        onLogValue={(e, h, val) => {";
  "                                            // Open popover for quantity inputs";
  "                                            handleOpenPopover(e, h, format(new Date(), 'yyyy-MM-dd'), val);";
  "                                        }}";
  "                                        onEdit={(h) => onEditHabit(h)}";
  "                                        onViewHistory={(h) => setHistoryModalHabitId(h.id)}";
  "                                    />";
  "                                ))}";
  "                            </div>";
  "                        </div>";
  "                    )}";
  "                </div>";
  "            </DndContext>";
  "";
  "            {/* Modals */}";
  "            <NumericInputPopover";
  "                isOpen={popoverState.isOpen}";
  "                onClose={() => setPopoverState(prev => ({ ...prev, isOpen: false }))}";
  "                onSubmit={async (val) => {";
  "                    try {";
  "                        const { habitId, date } = popoverState;";
  "                        // Use type assertion to access potential extra fields";
  "                        const state = popoverState as any;";
  "                        if (state.bundleOptionId) {";
  "                            await upsertHabitEntry(habitId, date, {";
  "                                value: val,";
  "                                bundleOptionId: state.bundleOptionId";
  "                            });";
  "                        } else {";
  "                            await upsertHabitEntry(habitId, date, { value: val });";
  "                        }";
  "                        refreshProgress();";
  "                        setPopoverState(prev => ({ ...prev, isOpen: false }));";
  "                    } catch (error) {";
  "                        console.error('Failed to update log:', error);";
  "                        setPopoverState(prev => ({ ...prev, isOpen: false }));";
  "                    }";
  "                }}";
  "                initialValue={popoverState.initialValue}";
  "                unit={popoverState.unit}";
  "                position={popoverState.position}";
  "            />";
  "";
  "            {historyModalHabitId && (";
  "                <HabitHistoryModal";
  "                    habitId={historyModalHabitId}";
  "                    onClose={() => setHistoryModalHabitId(null)}";
  "                />";
  "            )}";
  "";
  "            {/* Habit Choice Log Modal */}";
  "            {choiceLogState && (";
  "                <HabitLogModal";
  "                    isOpen={!!choiceLogState}";
  "                    onClose={() => setChoiceLogState(null)}";
  "                    habit={choiceLogState.habit}";
  "                    date={choiceLogState.date}";
  "                    existingEntry={logs[`${choiceLogState.habit.id}-${choiceLogState.date}`] ? {";
  "                        bundleOptionId: logs[`${choiceLogState.habit.id}-${choiceLogState.date}`].bundleOptionId,";
  "                        value: logs[`${choiceLogState.habit.id}-${choiceLogState.date}`].value";
  "                    } : undefined}";
  "                    onSave={handleChoiceSave}";
  "                />";
  "            )}";
  "        </div>";
  "    );";
  "};";
  "";
  "export default TrackerGrid;"
]%string.

(** [str(n)] for a length. *)
Definition decimal (n : nat) : str :=
  lit (NilEmpty.string_of_uint (Nat.to_uint n)).

(** The whole script. *)
Definition main : script unit :=
  content <- read_file ;;
  let lines := Py.readlines content in
  cutoff_index <- find_cutoff lines ;;
  let content_top := Py.slice_to lines (cutoff_index + 1) in
  let final_content := Py.join content_top ++ new_bottom in
  write_file final_content ;;;
  print (lit "Successfully rewrote TrackerGrid.tsx, new length "
         ++ decimal (length final_content) ++ lit " bytes").

End FixTrackerGrid.

(** * Notions used to state the properties *)

(** ** The line-scan machine as a table (section 4.3 of the specification)

    Two states; a line is either copied to the output or not. *)

Inductive scan_state : Type := Copying | Skipping.

Definition state_of_skip (skip : bool) : scan_state :=
  if skip then Skipping else Copying.

Definition is_skipping (st : scan_state) : bool :=
  match st with Skipping => true | Copying => false end.

(** The table as the specification words it, for a start and an end
    predicate on lines: the columns are "copy this line?" and the next
    state. *)
Definition spec_table (startPredicate endPredicate : str -> bool)
    (st : scan_state) (line : str) : bool * scan_state :=
  match st with
  | Copying =>
      if startPredicate line then (false, Skipping) else (true, Copying)
  | Skipping =>
      if endPredicate line then (false, Copying) else (false, Skipping)
  end.

(** A run of a table over the lines, from the state [st]: the lines copied
    and the final state. *)
Fixpoint table_run (table : scan_state -> str -> bool * scan_state)
    (st : scan_state) (lines : list str) : list str * scan_state :=
  match lines with
  | [] => ([], st)
  | line :: rest =>
      let '(copy, st') := table st line in
      let '(out, final) := table_run table st' rest in
      (if copy then line :: out else out, final)
  end.

Module ScanPredicates.
Import CleanTrackerGrid.

(** The conditions the loop of [clean_tracker_grid.py] tests on a line. *)
Definition has_start (line : str) : bool := Py.isin start_marker line.
Definition has_end (line : str) : bool := Py.isin end_marker line.
Definition has_log (line : str) : bool := Py.isin log_marker line.
Definition is_close (line : str) : bool :=
  str_eqb (Py.strip line) (lit "};").

(** Read as the specification's two predicates: a line opens a skip when it
    holds either start text, and ends one when it holds the end comment or
    is a lone closing brace. *)
Definition startPredicate (line : str) : bool := has_start line || has_log line.
Definition endPredicate (line : str) : bool := has_end line || is_close line.

(** The table the loop follows.  It differs from [spec_table] in the two
    middle rows of [Skipping]: a start of the second kind keeps the skip
    going even on a line that holds the end comment, and the line with the
    end comment is copied, not consumed. *)
Definition opens (line : str) : bool :=
  has_log line || has_start line && negb (has_end line).

Definition loop_table (st : scan_state) (line : str) : bool * scan_state :=
  match st with
  | Copying => if opens line then (false, Skipping) else (true, Copying)
  | Skipping =>
      if has_log line then (false, Skipping)
      else if has_end line then (true, Copying)
      else if is_close line then (false, Copying)
      else (false, Skipping)
  end.

End ScanPredicates.

(** The test of the first loop of [fix_tracker_grid.py] on a line. *)
Definition has_marker (line : str) : bool :=
  Py.isin FixTrackerGrid.marker_spaced line
  || Py.isin FixTrackerGrid.marker_tight line.

(** ** Blank-line runs

    For a run [w] of white space: how many newlines it holds, and the
    length of its part up to and including the last of them. *)

Definition newlines (w : str) : nat := count_occ ascii_dec w nl.

Fixpoint upto_last_nl (w : str) : option nat :=
  match w with
  | [] => None
  | c :: w' =>
      match upto_last_nl w' with
      | Some n => Some (S n)
      | None => if Ascii.eqb c nl then Some 1%nat else None
      end
  end.

(** The tails of the pattern [\n\s*\n\s*\n], each the continuation of
    the item before it. *)
Definition tail_nl : str -> option nat :=
  Re.match_here [(Re.Chr nl, Re.One)].

Definition tail_space_nl : str -> option nat :=
  Re.match_here [(Re.Space, Re.Star); (Re.Chr nl, Re.One)].

Definition tail_nl_space_nl : str -> option nat :=
  Re.match_here [(Re.Chr nl, Re.One); (Re.Space, Re.Star); (Re.Chr nl, Re.One)].

(** What stands in [w] after its last newline: the indentation of the line
    that follows a run of blank lines. *)
Definition after_last_nl (w : str) : str :=
  match upto_last_nl w with
  | Some n => skipn n w
  | None => w
  end.

(** [b] is empty or starts with a character that is not white space. *)
Definition text_start (b : str) : Prop :=
  match b with
  | [] => True
  | c :: _ => Py.isspace c = false
  end.

(** ** Sample inputs *)

Module Samples.

(** The first example of the specification (section 8). *)
Definition example1 : str := text ["A"; "START"; "foo"; "bar"; "END"; "B"]%string.

(** A buffer for [clean_habit_modal.py] in which the start marker stands
    twice, before a single end marker. *)
Definition two_starts : str :=
  CleanHabitModal.start_marker ++ lit "x" ++
  CleanHabitModal.start_marker ++ lit "y" ++
  CleanHabitModal.end_marker ++ lit "z".

(** A buffer in which the end marker stands before the start marker. *)
Definition end_before_start : str :=
  CleanHabitModal.end_marker ++ lit "x" ++ CleanHabitModal.start_marker.



(** The third example of the specification (section 8), and a buffer with
    two blank lines where that one has three. *)
Definition example3 : str := text ["a"; ""; ""; ""; "b"]%string.

Definition two_blank_lines : str := text ["a"; ""; ""; "b"]%string.

(** A file without any marker. *)
Definition no_marker : str := text ["a"; "b"]%string.

(** A [TrackerGrid.tsx] with the block to cut. *)
Definition grid_block : str :=
  text ["a"; "const WeeklyHabitRowContent = ({ x }) => {"; "  ;"; "};"; "";
        "// SortableWeeklyHabitRow removed/commented out"; "z"]%string.

(** The same with the end comment above the start. *)
Definition grid_reversed : str :=
  text ["// SortableWeeklyHabitRow removed/commented out";
        "const WeeklyHabitRowContent = ({"]%string.

(** A file for [fix_tracker_grid.py] with the marker line. *)
Definition grid_marker : str :=
  text ["a"; "{/* Weekly Habits Section - Redesigned as Cards */}"; "old"]%string.

(** A buffer for the scan with a start that is never closed, and its
    lines. *)
Definition unterminated_text : str :=
  text ["x"; "const handleOpenChoiceLog = () => {"; "y"; "z"]%string.

Definition unterminated : list str := Py.split_nl unterminated_text.

(** Lines for [fix_tracker_grid.py] with the marker in two of them. *)
Definition two_marker_lines : list str :=
  map lit ["a";
           "{/* Weekly Habits Section - Redesigned as Cards */}";
           "{/* Weekly Habits Section - Redesigned as Cards */ }"]%string.

(** Lines for the scan: a skip closed by the end comment. *)
Definition closed_by_comment : list str :=
  map lit ["const WeeklyHabitRowContent = ({"; "x";
           "// SortableWeeklyHabitRow removed/commented out"; "y"]%string.

(** A line for the scan that holds the start of the component and the
    end comment. *)
Definition start_and_end_comment : str :=
  lit "const WeeklyHabitRowContent = ({ // SortableWeeklyHabitRow removed/commented out".

(** Buffers that begin with blank lines. *)
Definition two_blank_lines_first : str := text [""; ""; "b"]%string.

Definition three_blank_lines_first : str := text [""; ""; ""; "b"]%string.


End Samples.

(** ** Further notions and sample inputs *)

(** [xs] is [ys] with some elements left out, in the same order. *)
Inductive subseq {A : Type} : list A -> list A -> Prop :=
| subseq_nil : subseq [] []
| subseq_keep (x : A) (xs ys : list A) :
    subseq xs ys -> subseq (x :: xs) (x :: ys)
| subseq_drop (y : A) (xs ys : list A) :
    subseq xs ys -> subseq xs (y :: ys).

(** The characters that are not white space, in order. *)
Definition ink (s : str) : str :=
  filter (fun c => negb (Py.isspace c)) s.

(** A pattern that is a literal text, character by character. *)
Definition lits (p : str) : Re.regex := map (fun c => (Re.Chr c, Re.One)) p.

(** The literal texts with which the patterns of lines 12 and 22 of
    [clean_habit_modal.py] begin. *)
Definition toggle_open : str :=
  lit "const toggleAssignedDay = (dayIndex: number) => {".

Definition branch_open : str :=
  lit "} else if (frequency === 'weekly' && goalType === 'boolean' && assignedDays.length > 0) {".

(** The pattern of the blank-line pass matches at no offset of [s]. *)
Definition blank_free (s : str) : Prop :=
  forall j : nat,
    Re.match_here CleanHabitModal.pat_blank_lines (skipn j s) = None.

(** What the blank-line pass leaves of a run [w] of white space that
    follows a newline. *)
Definition kept_run (w : str) : str :=
  if (2 <=? newlines w)%nat then nl :: after_last_nl w else w.

(** The literal texts with which the patterns and the [replace] calls of
    [clean_habit_modal.py] begin (lines 12, 15, 22, 26 and 29). *)
Definition habit_anchors : list str :=
  [toggle_open;
   lit "const daysOfWeek = ['S', 'M', 'T', 'W', 'T', 'F', 'S'];";
   branch_open;
   lit "assignedDays: frequency === 'daily' ? assignedDays : undefined,";
   lit "assignedDays: frequency === 'weekly' ? assignedDays : undefined,"].


Module MoreSamples.

(** A file of 1203 lines without the marker, with the fallback text in
    line 1201 (counting from 0). *)
Definition filler : list str := repeat (lit "x" ++ [nl]) 1201.

Definition long_file : str :=
  concat filler
  ++ text ["  {weeklyHabits.length > 0 && ("; "old"]%string.

(** A [toggleAssignedDay] definition with a flat body, and one whose body
    holds a nested block. *)
Definition flat_toggle : str :=
  lit "a;" ++ toggle_open ++ lit " f(dayIndex); " ++ lit "};" ++ lit "z".

Definition nested_toggle : str :=
  toggle_open ++ lit " if (x) { f(); " ++ lit "}" ++ lit " };".

(** A [WeeklyHabitRowContent] block without a semicolon inside, and one
    with a statement inside. *)
Definition plain_row : str :=
  CleanTrackerGrid.start_marker ++ lit " habit }) => (<Row />)"
  ++ nl :: lit "};" ++ lit "z".

Definition row_with_statement : str :=
  CleanTrackerGrid.start_marker ++ lit " habit }) => { const x = 1"
  ++ lit ";" ++ nl :: lit "};".


End MoreSamples.

(** * Properties *)

(** ** Slices *)

Lemma len_nonneg {A} (s : list A) : 0 <= len s.
Proof. unfold len; lia. Qed.

Lemma len_app {A} (a b : list A) : len (a ++ b) = len a + len b.
Proof. unfold len; rewrite length_app; lia. Qed.

Lemma slice_to_nat {A} (s : list A) (i : Z) :
  0 <= i -> Py.slice_to s i = firstn (Z.to_nat i) s.
Proof.
  intros Hi; unfold Py.slice_to.
  destruct (Z.ltb_spec i 0); [lia | reflexivity].
Qed.

Lemma slice_from_nat {A} (s : list A) (i : Z) :
  0 <= i -> Py.slice_from s i = skipn (Z.to_nat i) s.
Proof.
  intros Hi; unfold Py.slice_from.
  destruct (Z.ltb_spec i 0); [lia | reflexivity].
Qed.

Lemma slice_to_from {A} (s : list A) (i : Z) :
  Py.slice_to s i ++ Py.slice_from s i = s.
Proof. unfold Py.slice_to, Py.slice_from; apply firstn_skipn. Qed.

Lemma len_slice_to {A} (s : list A) (i : Z) :
  0 <= i <= len s -> len (Py.slice_to s i) = i.
Proof.
  intros Hi; rewrite slice_to_nat by lia.
  unfold len in *; rewrite length_firstn; lia.
Qed.

Lemma len_slice_from {A} (s : list A) (i : Z) :
  0 <= i <= len s -> len (Py.slice_from s i) = len s - i.
Proof.
  intros Hi; rewrite slice_from_nat by lia.
  unfold len in *; rewrite length_skipn; lia.
Qed.

(** ** [startswith] and [find] *)

Lemma startswith_app (sub s : str) :
  Py.startswith sub s = true <-> exists t, s = sub ++ t.
Proof.
  revert s; induction sub as [|a sub IH]; intros s; simpl.
  - split; [intros _; now exists s | reflexivity].
  - destruct s as [|b s].
    + split; [discriminate | intros [t Ht]; discriminate].
    + rewrite andb_true_iff, Ascii.eqb_eq, IH.
      split.
      * intros [-> [t ->]]; now exists t.
      * intros [t Ht]; injection Ht as -> ->; split; [reflexivity | now exists t].
Qed.

Lemma startswith_refl_app (sub t : str) : Py.startswith sub (sub ++ t) = true.
Proof. apply startswith_app; now exists t. Qed.

(** What the search returns, from any starting offset [i >= 0]: either
    [-1] and no occurrence at all, or the first occurrence. *)
Lemma find_at_spec (sub s : str) (i : Z) :
  0 <= i ->
  (Py.find_at sub s i = -1 /\
   forall k, (k <= length s)%nat -> Py.startswith sub (skipn k s) = false)
  \/
  (exists k, (k <= length s)%nat /\
     Py.find_at sub s i = i + Z.of_nat k /\
     Py.startswith sub (skipn k s) = true /\
     forall j, (j < k)%nat -> Py.startswith sub (skipn j s) = false).
Proof.
  revert i; induction s as [|c s IH]; intros i Hi; simpl Py.find_at.
  - destruct (Py.startswith sub []) eqn:E.
    + right; exists O; simpl; repeat split; [lia | lia | exact E | intros; lia].
    + left; split; [reflexivity|].
      intros k Hk; simpl in Hk; replace k with O by lia; exact E.
  - destruct (Py.startswith sub (c :: s)) eqn:E.
    + right; exists O; simpl; repeat split; [lia | lia | exact E | intros; lia].
    + destruct (IH (i + 1)) as [[Hn Hall] | [k [Hk [Hf [Hs Hmin]]]]]; [lia | |].
      * left; split; [exact Hn|].
        intros [|k] Hk; [exact E | simpl; apply Hall; simpl in Hk; lia].
      * right; exists (S k); simpl; repeat split; [lia | lia | exact Hs |].
        intros [|j] Hj; [exact E | simpl; apply Hmin; lia].
Qed.

(** [find] returns [-1] exactly when the text occurs nowhere. *)
Lemma find_none (s sub : str) :
  Py.find s sub = -1 <->
  forall k, (k <= length s)%nat -> Py.startswith sub (skipn k s) = false.
Proof.
  unfold Py.find.
  destruct (find_at_spec sub s 0) as [[Hn Hall] | [k [Hk [Hf [Hs Hmin]]]]];
    [lia | |].
  - split; [intros _; exact Hall | intros _; exact Hn].
  - split; [lia|].
    intros Hall; rewrite Hall in Hs by exact Hk; discriminate.
Qed.

(** When [find] does not return [-1], it returns the first occurrence. *)
Lemma find_first (s sub : str) :
  Py.find s sub <> -1 ->
  exists k, Py.find s sub = Z.of_nat k /\ (k <= length s)%nat /\
    Py.startswith sub (skipn k s) = true /\
    forall j, (j < k)%nat -> Py.startswith sub (skipn j s) = false.
Proof.
  unfold Py.find; intros Hne.
  destruct (find_at_spec sub s 0) as [[Hn Hall] | [k [Hk [Hf [Hs Hmin]]]]];
    [lia | contradiction |].
  exists k; repeat split; [lia | exact Hk | exact Hs | exact Hmin].
Qed.

Lemma find_range (s sub : str) :
  Py.find s sub = -1 \/ 0 <= Py.find s sub <= len s.
Proof.
  destruct (Z.eq_dec (Py.find s sub) (-1)) as [E | E]; [now left | right].
  destruct (find_first s sub E) as [k [-> [Hk _]]]; unfold len; lia.
Qed.

(** The two outcomes of the marker-pair cut. *)
Lemma marker_cut_some (sm em content : str) :
  Py.find content sm <> -1 -> Py.find content em <> -1 ->
  marker_cut sm em content =
  Some (Py.slice_to content (Py.find content sm)
        ++ Py.slice_from content (Py.find content em)).
Proof.
  intros Hs He; unfold marker_cut.
  destruct (Z.eqb_spec (Py.find content sm) (-1)); [contradiction|].
  destruct (Z.eqb_spec (Py.find content em) (-1)); [contradiction|].
  reflexivity.
Qed.

Lemma marker_cut_none (sm em content : str) :
  Py.find content sm = -1 \/ Py.find content em = -1 ->
  marker_cut sm em content = None.
Proof.
  intros H; unfold marker_cut.
  destruct (Z.eqb_spec (Py.find content sm) (-1)); [reflexivity|].
  destruct (Z.eqb_spec (Py.find content em) (-1)); [reflexivity|].
  destruct H; contradiction.
Qed.

Lemma marker_cut_inv (sm em content out : str) :
  marker_cut sm em content = Some out ->
  Py.find content sm <> -1 /\ Py.find content em <> -1 /\
  out = Py.slice_to content (Py.find content sm)
        ++ Py.slice_from content (Py.find content em).
Proof.
  unfold marker_cut; intros H.
  destruct (Z.eqb_spec (Py.find content sm) (-1)); [discriminate|].
  destruct (Z.eqb_spec (Py.find content em) (-1)); [discriminate|].
  simpl in H; injection H as <-; auto.
Qed.

(** ** The replacing scan *)

Lemma scan_replace_skip (m : str -> option nat) (repl : str) (s : str) :
  forall k, (k <= length s)%nat ->
    Py.scan_replace m repl k s = Py.scan_replace m repl O (skipn k s).
Proof.
  induction s as [|c s IH]; intros [|k] Hk; simpl in *;
    try reflexivity; try lia.
  apply IH; lia.
Qed.

Lemma scan_replace_match (m : str -> option nat) (repl : str)
    (c : ascii) (s : str) (k : nat) :
  m (c :: s) = Some (S k) -> (k <= length s)%nat ->
  Py.scan_replace m repl O (c :: s)
  = repl ++ Py.scan_replace m repl O (skipn k s).
Proof.
  intros Hm Hk; simpl; rewrite Hm.
  now rewrite scan_replace_skip.
Qed.

Lemma scan_replace_no_match (m : str -> option nat) (repl : str)
    (c : ascii) (s : str) :
  m (c :: s) = None ->
  Py.scan_replace m repl O (c :: s) = c :: Py.scan_replace m repl O s.
Proof. intros Hm; simpl; now rewrite Hm. Qed.

(** Where nothing matches, the scan copies. *)
Lemma scan_replace_copy (m : str -> option nat) (repl : str) (p s : str) :
  (forall j, (j < length p)%nat -> m (skipn j (p ++ s)) = None) ->
  Py.scan_replace m repl O (p ++ s) = p ++ Py.scan_replace m repl O s.
Proof.
  induction p as [|c p IH]; intros H; [reflexivity|].
  simpl app; rewrite scan_replace_no_match by (apply (H O); simpl; lia).
  f_equal; apply IH.
  intros j Hj; apply (H (S j)); simpl; lia.
Qed.


(** ** Matches stay inside the text *)

Section MatchBound.
Variable k : str -> option nat.
Hypothesis k_bound : forall s n, k s = Some n -> (n <= length s)%nat.

Lemma one_bound (a : Re.atom) (s : str) (n : nat) :
  Re.one a k s = Some n -> (n <= length s)%nat.
Proof.
  destruct s as [|c s]; simpl; [discriminate|].
  destruct (Re.accepts a c); [|discriminate].
  destruct (k s) as [m|] eqn:E; simpl; [|discriminate].
  intros H; injection H as <-; apply k_bound in E; lia.
Qed.

Lemma star_bound (a : Re.atom) (s : str) :
  forall n, Re.star a k s = Some n -> (n <= length s)%nat.
Proof.
  induction s as [|c s IH]; intros n; simpl; [apply k_bound|].
  destruct (Re.accepts a c); [|apply (k_bound (c :: s))].
  destruct (Re.star a k s) as [m|].
  - intros H; injection H as <-; specialize (IH m eq_refl); lia.
  - apply (k_bound (c :: s)).
Qed.

Lemma plus_lazy_bound (a : Re.atom) (s : str) :
  forall n, Re.plus_lazy a k s = Some n -> (n <= length s)%nat.
Proof.
  induction s as [|c s IH]; intros n; simpl; [discriminate|].
  destruct (Re.accepts a c); [|discriminate].
  destruct (k s) as [m|] eqn:E.
  - intros H; injection H as <-; apply k_bound in E; lia.
  - destruct (Re.plus_lazy a k s) as [m|]; simpl; [|discriminate].
    intros H; injection H as <-; specialize (IH m eq_refl); lia.
Qed.

End MatchBound.

Lemma match_here_bound (r : Re.regex) :
  forall s n, Re.match_here r s = Some n -> (n <= length s)%nat.
Proof.
  induction r as [|[a q] r IH]; intros s n; simpl.
  - intros H; injection H as <-; lia.
  - destruct q.
    + apply one_bound; exact IH.
    + apply star_bound; exact IH.
    + apply one_bound; intros s' n'; apply star_bound; exact IH.
    + apply plus_lazy_bound; exact IH.
Qed.

(** [re.sub] at the first match: the text before it is copied, [repl]
    takes the place of the match, and the scan goes on behind it. *)
Lemma sub_first_match (pattern : Re.regex) (repl p s : str) (n : nat) :
  (forall j, (j < length p)%nat ->
     Re.match_here pattern (skipn j (p ++ s)) = None) ->
  Re.match_here pattern s = Some (S n) ->
  Re.sub pattern repl (p ++ s)
  = p ++ repl ++ Re.sub pattern repl (skipn (S n) s).
Proof.
  intros Hbefore Hm; unfold Re.sub.
  rewrite scan_replace_copy by exact Hbefore.
  f_equal.
  pose proof (match_here_bound _ _ _ Hm) as Hn.
  destruct s as [|c s]; [simpl in Hn; lia|].
  rewrite (scan_replace_match _ _ c s n Hm) by (simpl in Hn; lia).
  reflexivity.
Qed.

(** ** The line search of [fix_tracker_grid.py] *)

(** The first loop stops at the first line that holds the marker. *)
Lemma search_marker_spec (lines : list str) (i : Z) :
  0 <= i ->
  (FixTrackerGrid.search_marker lines i = -1 /\
   Forall (fun l => has_marker l = false) lines)
  \/
  (exists top line rest,
     lines = top ++ line :: rest /\
     FixTrackerGrid.search_marker lines i = i + len top /\
     has_marker line = true /\
     Forall (fun l => has_marker l = false) top).
Proof.
  revert i; induction lines as [|l lines IH]; intros i Hi; simpl.
  - left; split; [reflexivity | constructor].
  - destruct (Py.isin FixTrackerGrid.marker_spaced l) eqn:E1.
    { right; exists [], l, lines; unfold has_marker; rewrite E1; simpl.
      repeat split; [unfold len; simpl; lia | constructor]. }
    destruct (Py.isin FixTrackerGrid.marker_tight l) eqn:E2.
    { right; exists [], l, lines; unfold has_marker; rewrite E1, E2; simpl.
      repeat split; [unfold len; simpl; lia | constructor]. }
    destruct (IH (i + 1)) as [[Hn Hall] | (top & line & rest & -> & Hs & Hm & Hall)];
      [lia | |].
    + left; split; [exact Hn|].
      constructor; [unfold has_marker; now rewrite E1, E2 | exact Hall].
    + right; exists (l :: top), line, rest; repeat split.
      * rewrite Hs; unfold len; simpl length; lia.
      * exact Hm.
      * constructor; [unfold has_marker; now rewrite E1, E2 | exact Hall].
Qed.

(** ** The marker search and the cut (claims C1, C4, C5) *)

Lemma occurrence_found (s sub : str) (k : Z) :
  0 <= k <= len s ->
  Py.startswith sub (Py.slice_from s k) = true ->
  Py.find s sub <> -1.
Proof.
  intros Hk Hocc Hnone.
  rewrite slice_from_nat in Hocc by lia.
  rewrite find_none in Hnone.
  rewrite Hnone in Hocc; [discriminate | unfold len in Hk; lia].
Qed.

(** C1, the claim as stated fails: in [Samples.two_starts] the start marker
    of [clean_habit_modal.py] occurs at offset 0 and again at offset 90.
    The search answers 0, the cut is applied from there, and the script
    writes a file that differs from the one it read. *)
Lemma two_occurrences_are_cut_at_the_first :
  let c := Samples.two_starts in
  let sm := CleanHabitModal.start_marker in
  let em := CleanHabitModal.end_marker in
  Py.startswith sm (Py.slice_from c 0) = true /\
  Py.startswith sm (Py.slice_from c 90) = true /\
  Py.find c sm = 0 /\
  marker_cut sm em c = Some (em ++ lit "z") /\
  file (snd (run CleanHabitModal.main c)) = em ++ lit "z" /\
  file (snd (run CleanHabitModal.main c)) <> c.
Proof.
  vm_compute; repeat split; discriminate.
Qed.

(** The character search, at any occurrence of the marker. *)
Lemma find_takes_first (content start_marker end_marker : str) (k : Z) :
  0 <= k <= len content ->
  Py.startswith start_marker (Py.slice_from content k) = true ->
  Py.find content end_marker <> -1 ->
  let start_idx := Py.find content start_marker in
  let end_idx := Py.find content end_marker in
  0 <= start_idx <= k /\
  Py.startswith start_marker (Py.slice_from content start_idx) = true /\
  (forall j, 0 <= j < start_idx ->
     Py.startswith start_marker (Py.slice_from content j) = false) /\
  marker_cut start_marker end_marker content =
    Some (Py.slice_to content start_idx ++ Py.slice_from content end_idx).
Proof.
  intros Hk Hocc Hem start_idx end_idx.
  assert (Hsm : Py.find content start_marker <> -1)
    by (eapply occurrence_found; eauto).
  destruct (find_first content start_marker Hsm) as [k0 [Hf [Hk0 [Hs Hmin]]]].
  subst start_idx end_idx; rewrite Hf.
  assert (Hle : (k0 <= Z.to_nat k)%nat).
  { destruct (Nat.le_gt_cases k0 (Z.to_nat k)) as [H | H]; [exact H|].
    rewrite slice_from_nat in Hocc by lia.
    rewrite (Hmin _ H) in Hocc; discriminate. }
  repeat split.
  - lia.
  - lia.
  - rewrite slice_from_nat by lia; rewrite Nat2Z.id; exact Hs.
  - intros j Hj; rewrite slice_from_nat by lia; apply Hmin; lia.
  - rewrite <- Hf; apply marker_cut_some; assumption.
Qed.

(** The line search, at any line that holds the marker. *)
Lemma search_takes_first (lines : list str) (k : nat) (line : str) :
  nth_error lines k = Some line ->
  has_marker line = true ->
  exists top first rest,
    lines = top ++ first :: rest /\
    FixTrackerGrid.search_marker lines 0 = len top /\
    (length top <= k)%nat /\
    Forall (fun l => has_marker l = false) top /\
    has_marker first = true.
Proof.
  intros Hnth Hline.
  destruct (search_marker_spec lines 0 ltac:(lia))
    as [[_ Hall] | (top & first & rest & Hl & Hs & Hm & Hall)].
  - rewrite Forall_forall in Hall.
    rewrite (Hall line (nth_error_In _ _ Hnth)) in Hline; discriminate.
  - exists top, first, rest.
    split; [exact Hl|]; split; [lia|]; split; [|split; assumption].
    destruct (Nat.le_gt_cases (length top) k) as [H | H]; [exact H|].
    rewrite Hl, nth_error_app1 in Hnth by exact H.
    rewrite Forall_forall in Hall.
    rewrite (Hall line (nth_error_In _ _ Hnth)) in Hline; discriminate.
Qed.

(** C1, amended: the search for a marker has no ambiguous outcome.  If the
    marker occurs at some offset [k] of the buffer, however many other
    occurrences there are, [content.find] returns the offset of the first
    one: an occurrence, not after [k], with none before it; with the end
    marker found as well, the cut is applied from that first occurrence.
    In the same way, if some line [k] holds the marker of
    [fix_tracker_grid.py], its search loop stops at the first such line,
    not after [k], with none before it. *)
Theorem marker_search_takes_first_occurrence :
  (forall (content start_marker end_marker : str) (k : Z),
     0 <= k <= len content ->
     Py.startswith start_marker (Py.slice_from content k) = true ->
     Py.find content end_marker <> -1 ->
     let start_idx := Py.find content start_marker in
     let end_idx := Py.find content end_marker in
     0 <= start_idx <= k /\
     Py.startswith start_marker (Py.slice_from content start_idx) = true /\
     (forall j, 0 <= j < start_idx ->
        Py.startswith start_marker (Py.slice_from content j) = false) /\
     marker_cut start_marker end_marker content =
       Some (Py.slice_to content start_idx ++ Py.slice_from content end_idx))
  /\
  (forall (lines : list str) (k : nat) (line : str),
     nth_error lines k = Some line ->
     has_marker line = true ->
     exists top first rest,
       lines = top ++ first :: rest /\
       FixTrackerGrid.search_marker lines 0 = len top /\
       (length top <= k)%nat /\
       Forall (fun l => has_marker l = false) top /\
       has_marker first = true).
Proof.
  split.
  - intros content sm em k; apply find_takes_first.
  - intros lines k line; apply search_takes_first.
Qed.

Lemma marker_search_takes_first_occurrence_witness :
  (let c := Samples.two_starts in
   let sm := CleanHabitModal.start_marker in
   let em := CleanHabitModal.end_marker in
   0 <= Py.find c sm <= 90 /\
   marker_cut sm em c =
     Some (Py.slice_to c (Py.find c sm) ++ Py.slice_from c (Py.find c em)))
  /\
  (exists top first rest,
     Samples.two_marker_lines = top ++ first :: rest /\
     FixTrackerGrid.search_marker Samples.two_marker_lines 0 = len top /\
     (length top <= 2)%nat /\
     Forall (fun l => has_marker l = false) top /\
     has_marker first = true).
Proof.
  destruct marker_search_takes_first_occurrence as [Hfind Hsearch].
  split.
  - destruct (Hfind Samples.two_starts CleanHabitModal.start_marker
                CleanHabitModal.end_marker 90)
      as (Hrange & _ & _ & Hcut).
    + vm_compute; split; discriminate.
    + vm_compute; reflexivity.
    + vm_compute; discriminate.
    + cbv zeta; split; [exact Hrange | exact Hcut].
  - apply (Hsearch Samples.two_marker_lines 2%nat
             (lit "{/* Weekly Habits Section - Redesigned as Cards */ }"));
      reflexivity.
Defined.

(** C5, the claim as stated fails: on the buffer of example 1 the cut
    between ["START\n"] and ["END\n"] does not keep both markers. *)
Lemma example1_does_not_keep_both_markers :
  marker_cut (text ["START"]%string) (text ["END"]%string) Samples.example1
  <> Some (text ["A"; "START"; "END"; "B"]%string).
Proof.
  vm_compute; discriminate.
Qed.

(** C5, amended: on the buffer ["A\nSTART\nfoo\nbar\nEND\nB\n"] the cut
    between ["START\n"] and ["END\n"] yields ["A\nEND\nB\n"]: the start
    marker goes with the body, and the end marker alone is kept. *)
Theorem example1_cut_keeps_end_marker_only :
  Py.find Samples.example1 (text ["START"]%string) = 2 /\
  Py.find Samples.example1 (text ["END"]%string) = 16 /\
  marker_cut (text ["START"]%string) (text ["END"]%string) Samples.example1
  = Some (text ["A"; "END"; "B"]%string).
Proof.
  vm_compute; repeat split.
Qed.

(** The cut at a span [[start_idx, end_idx)] with [start_idx <= end_idx]
    gives the buffer without that span. *)
Lemma marker_cut_frame :
  forall (start_marker end_marker content out : str),
    marker_cut start_marker end_marker content = Some out ->
    let start_idx := Py.find content start_marker in
    let end_idx := Py.find content end_marker in
    start_idx <= end_idx ->
    0 <= start_idx /\ end_idx <= len content /\
    len out = len content - (end_idx - start_idx) /\
    Py.slice_to out start_idx = Py.slice_to content start_idx /\
    Py.slice_from out start_idx = Py.slice_from content end_idx /\
    (forall i, 0 <= i < start_idx ->
       nth_error out (Z.to_nat i) = nth_error content (Z.to_nat i)) /\
    (forall i, end_idx <= i < len content ->
       nth_error out (Z.to_nat (i - (end_idx - start_idx)))
       = nth_error content (Z.to_nat i)).
Proof.
  intros sm em content out Hcut s e Hse.
  destruct (marker_cut_inv _ _ _ _ Hcut) as [Hs [He ->]].
  fold s e in Hs, He |- *.
  destruct (find_range content sm) as [? | Hrs]; [contradiction|].
  destruct (find_range content em) as [? | Hre]; [contradiction|].
  fold s in Hrs; fold e in Hre.
  assert (Hl : length (Py.slice_to content s) = Z.to_nat s).
  { pose proof (len_slice_to content s ltac:(lia)) as H; unfold len in H; lia. }
  assert (Hto : Py.slice_to (Py.slice_to content s ++ Py.slice_from content e) s
                = Py.slice_to content s).
  { rewrite (slice_to_nat (_ ++ _)) by lia.
    rewrite firstn_app, Hl, Nat.sub_diag; simpl; rewrite app_nil_r.
    apply firstn_all2; lia. }
  assert (Hfrom : Py.slice_from (Py.slice_to content s ++ Py.slice_from content e) s
                  = Py.slice_from content e).
  { rewrite (slice_from_nat (_ ++ _)) by lia.
    rewrite skipn_app, Hl, Nat.sub_diag; simpl.
    rewrite skipn_all2 by lia; reflexivity. }
  repeat split; try lia; try assumption.
  - rewrite len_app, len_slice_to, len_slice_from by lia; lia.
  - intros i Hi.
    rewrite nth_error_app1 by lia.
    rewrite slice_to_nat by lia.
    rewrite nth_error_firstn.
    destruct (Nat.ltb_spec (Z.to_nat i) (Z.to_nat s)); [reflexivity | lia].
  - intros i Hi.
    rewrite nth_error_app2 by lia.
    rewrite Hl, slice_from_nat by lia.
    rewrite nth_error_skipn; f_equal; lia.
Qed.



(** ** What the scripts write (claims C2, C10) *)

(** The passes of [clean_tracker_grid.py] over [content] return normally
    and touch neither the file nor the record of writes. *)
Lemma content_passes_no_write (content : str) (w : world) :
  exists v w', CleanTrackerGrid.content_passes content w = (Ret v, w') /\
    file w' = file w /\ writes w' = writes w.
Proof.
  unfold CleanTrackerGrid.content_passes.
  destruct (marker_cut _ _ _); script_steps; eauto.
Qed.

(** The last step of [clean_tracker_grid.py], on the file as first read. *)
Lemma clean_tracker_grid_run (original : str) :
  exists out,
    run CleanTrackerGrid.main original =
    match marker_cut CleanTrackerGrid.start_marker
            CleanTrackerGrid.end_marker original with
    | Some cut =>
        (Ret tt,
         World cut [cut] (out ++ [lit "Removed WeeklyHabitRowContent"]))
    | None =>
        (Ret tt,
         World original []
           (out ++ [lit "Markers not found for WeeklyHabitRowContent"]))
    end.
Proof.
  unfold run, CleanTrackerGrid.main, bind at 1, read_file at 1; simpl.
  destruct (content_passes_no_write original (start original))
    as [v [[f ws out] [E [Hf Hw]]]].
  simpl in Hf, Hw; subst f ws.
  exists out.
  unfold bind at 1; rewrite E.
  unfold bind at 1, read_file; simpl.
  destruct (marker_cut _ _ original); script_steps; reflexivity.
Qed.

(** [clean_habit_modal.py] always reaches its write. *)
Lemma clean_habit_modal_run (original : str) :
  let content := CleanHabitModal.early_passes original in
  run CleanHabitModal.main original =
  match marker_cut CleanHabitModal.start_marker
          CleanHabitModal.end_marker content with
  | Some cut =>
      let out := CleanHabitModal.cleanup_blank_lines cut in
      (Ret tt,
       World out [out] [lit "Successfully cleaned AddHabitModal.tsx"])
  | None =>
      let out := CleanHabitModal.cleanup_blank_lines content in
      (Ret tt,
       World out [out]
         [lit "Could not find Old Weekly Config Block markers";
          lit "Successfully cleaned AddHabitModal.tsx"])
  end.
Proof.
  intros content.
  unfold run, CleanHabitModal.main, CleanHabitModal.cut_weekly_config.
  unfold bind at 1, read_file at 1; simpl.
  fold content.
  destruct (marker_cut _ _ content); script_steps; reflexivity.
Qed.

(** [fix_tracker_grid.py], by the outcome of its two searches. *)
Lemma fix_tracker_grid_run (original : str) :
  let lines := Py.readlines original in
  let rewritten (k : Z) :=
    Py.join (Py.slice_to lines (k + 1)) ++ FixTrackerGrid.new_bottom in
  let done (k : Z) :=
    lit "Successfully rewrote TrackerGrid.tsx, new length "
    ++ FixTrackerGrid.decimal (length (rewritten k)) ++ lit " bytes" in
  run FixTrackerGrid.main original =
  if FixTrackerGrid.search_marker lines 0 =? -1 then
    if FixTrackerGrid.search_fallback lines 0 =? -1 then
      (Exited 1,
       World original []
         [lit "Could not find cutoff point";
          lit "Really could not find cutoff"])
    else
      let k := FixTrackerGrid.search_fallback lines 0 in
      (Ret tt,
       World (rewritten k) [rewritten k]
         [lit "Could not find cutoff point"; done k])
  else
    let k := FixTrackerGrid.search_marker lines 0 in
    (Ret tt, World (rewritten k) [rewritten k] [done k]).
Proof.
  intros lines rewritten done.
  unfold run, FixTrackerGrid.main, FixTrackerGrid.find_cutoff.
  unfold bind at 1, read_file at 1; simpl.
  fold lines.
  destruct (FixTrackerGrid.search_marker lines 0 =? -1).
  - destruct (FixTrackerGrid.search_fallback lines 0 =? -1);
      script_steps; reflexivity.
  - script_steps; reflexivity.
Qed.

(** C2, the claim as stated fails: on a file without the markers,
    [clean_habit_modal.py] reports that it could not find its region and
    writes the target file all the same. *)
Lemma clean_habit_modal_writes_after_failed_cut :
  let w := snd (run CleanHabitModal.main Samples.no_marker) in
  marker_cut CleanHabitModal.start_marker CleanHabitModal.end_marker
    (CleanHabitModal.early_passes Samples.no_marker) = None /\
  stdout w = [lit "Could not find Old Weekly Config Block markers";
              lit "Successfully cleaned AddHabitModal.tsx"] /\
  writes w = [Samples.no_marker].
Proof.
  vm_compute; repeat split.
Qed.

(** C2, amended: each script guards its write in its own way.
    [clean_tracker_grid.py] writes nothing and leaves the file as it was
    when either marker is missing from it.  [fix_tracker_grid.py] leaves
    through [exit(1)] before any write when neither search finds a
    cut-off line.  [clean_habit_modal.py] has no guard: it ends normally
    with exactly one write, and when the marker pair is not found what it
    writes is the buffer of the other passes, after the message. *)
Theorem writes_follow_each_script_guard :
  forall original : str,
    (marker_cut CleanTrackerGrid.start_marker CleanTrackerGrid.end_marker
       original = None ->
     let w := snd (run CleanTrackerGrid.main original) in
     writes w = [] /\ file w = original) /\
    (FixTrackerGrid.search_marker (Py.readlines original) 0 = -1 ->
     FixTrackerGrid.search_fallback (Py.readlines original) 0 = -1 ->
     let r := run FixTrackerGrid.main original in
     fst r = Exited 1 /\ writes (snd r) = [] /\ file (snd r) = original) /\
    (let r := run CleanHabitModal.main original in
     fst r = Ret tt /\ writes (snd r) = [file (snd r)]) /\
    (marker_cut CleanHabitModal.start_marker CleanHabitModal.end_marker
       (CleanHabitModal.early_passes original) = None ->
     let w := snd (run CleanHabitModal.main original) in
     writes w =
       [CleanHabitModal.cleanup_blank_lines
          (CleanHabitModal.early_passes original)] /\
     stdout w = [lit "Could not find Old Weekly Config Block markers";
                 lit "Successfully cleaned AddHabitModal.tsx"]).
Proof.
  intros original; split; [|split; [|split]].
  - intros Hnone w; subst w.
    destruct (clean_tracker_grid_run original) as [out E].
    rewrite E, Hnone; simpl; auto.
  - intros Hm Hf r; subst r.
    rewrite fix_tracker_grid_run; cbv zeta.
    rewrite Hm, Hf; simpl; auto.
  - cbv zeta; rewrite clean_habit_modal_run; cbv zeta.
    destruct (marker_cut _ _ _); simpl; auto.
  - intros Hnone w; subst w.
    rewrite clean_habit_modal_run; cbv zeta.
    rewrite Hnone; simpl; auto.
Qed.

Lemma writes_follow_each_script_guard_witness :
  (let w := snd (run CleanTrackerGrid.main Samples.no_marker) in
   writes w = [] /\ file w = Samples.no_marker) /\
  (let r := run FixTrackerGrid.main Samples.no_marker in
   fst r = Exited 1 /\ writes (snd r) = [] /\ file (snd r) = Samples.no_marker) /\
  (let w := snd (run CleanHabitModal.main Samples.no_marker) in
   writes w = [Samples.no_marker]).
Proof.
  destruct (writes_follow_each_script_guard Samples.no_marker)
    as (Hgrid & Hfix & _ & Hmodal).
  split; [|split].
  - exact (Hgrid eq_refl).
  - exact (Hfix eq_refl eq_refl).
  - exact (proj1 (Hmodal eq_refl)).
Defined.

(** C10, the claim as stated fails: in [Samples.grid_reversed] both
    markers occur, the end comment first.  The script writes, and what it
    writes is longer than the original, so it is not the original with one
    span cut out. *)
Lemma clean_tracker_grid_reversed_markers_grow_the_file :
  let c := Samples.grid_reversed in
  let w := snd (run CleanTrackerGrid.main c) in
  Py.find c CleanTrackerGrid.start_marker = 48 /\
  Py.find c CleanTrackerGrid.end_marker = 0 /\
  writes w = [file w] /\
  len (file w) = len c + 48 /\
  (forall i j : Z, 0 <= i <= j ->
     file w <> Py.slice_to c i ++ Py.slice_from c j).
Proof.
  cbv zeta.
  assert (E : file (snd (run CleanTrackerGrid.main Samples.grid_reversed))
              = Py.slice_to Samples.grid_reversed 48 ++ Samples.grid_reversed).
  { destruct (clean_tracker_grid_run Samples.grid_reversed) as [out ->].
    reflexivity. }
  split; [reflexivity|split; [reflexivity|split; [|split]]].
  - destruct (clean_tracker_grid_run Samples.grid_reversed) as [out ->].
    reflexivity.
  - rewrite E; reflexivity.
  - intros i j Hij H; rewrite E in H.
    apply (f_equal (@length ascii)) in H.
    rewrite (slice_to_nat _ i), (slice_from_nat _ j) in H by lia.
    rewrite !length_app, length_firstn, length_skipn in H.
    change (length (Py.slice_to Samples.grid_reversed 48)) with 48%nat in H.
    lia.
Qed.

(** C10, amended: what [clean_tracker_grid.py] leaves in the target file
    depends on the file as first read alone, not on the regex passes or
    the line scan.  If either marker is missing, the file is not written.
    If both occur, the file is written once, with
    [original[:s_idx] + original[e_idx:]] for the first occurrences
    [s_idx] of the start text and [e_idx] of the end comment; when
    [s_idx <= e_idx] that is the original with the one span
    [[s_idx, e_idx)] cut out, the end comment kept. *)
Theorem clean_tracker_grid_net_effect :
  forall original : str,
    let s_idx := Py.find original CleanTrackerGrid.start_marker in
    let e_idx := Py.find original CleanTrackerGrid.end_marker in
    let r := run CleanTrackerGrid.main original in
    fst r = Ret tt /\
    (s_idx = -1 \/ e_idx = -1 ->
     writes (snd r) = [] /\ file (snd r) = original) /\
    (s_idx <> -1 -> e_idx <> -1 ->
     file (snd r) =
       Py.slice_to original s_idx ++ Py.slice_from original e_idx /\
     writes (snd r) = [file (snd r)]) /\
    (s_idx <> -1 -> e_idx <> -1 -> s_idx <= e_idx ->
     len (file (snd r)) = len original - (e_idx - s_idx) /\
     Py.slice_to (file (snd r)) s_idx = Py.slice_to original s_idx /\
     Py.slice_from (file (snd r)) s_idx = Py.slice_from original e_idx /\
     Py.startswith CleanTrackerGrid.end_marker
       (Py.slice_from (file (snd r)) s_idx) = true).
Proof.
  intros original s_idx e_idx r.
  destruct (clean_tracker_grid_run original) as [out E].
  subst r; rewrite E; clear E.
  split; [destruct (marker_cut _ _ original); reflexivity|].
  split; [|split].
  - intros H; rewrite (marker_cut_none _ _ _ H); simpl; auto.
  - intros Hs He; rewrite (marker_cut_some _ _ _ Hs He); simpl; auto.
  - intros Hs He Hse.
    pose proof (marker_cut_some _ _ _ Hs He) as Hcut.
    rewrite Hcut; simpl.
    destruct (marker_cut_frame _ _ _ _ Hcut Hse)
      as (_ & _ & Hlen & Hto & Hfrom & _).
    fold s_idx e_idx in Hlen, Hto, Hfrom |- *.
    repeat split; try assumption.
    rewrite Hfrom.
    destruct (find_first original CleanTrackerGrid.end_marker He)
      as [k [Hk [_ [Hocc _]]]].
    fold e_idx in Hk.
    rewrite slice_from_nat by lia.
    rewrite Hk, Nat2Z.id; exact Hocc.
Qed.

Lemma clean_tracker_grid_net_effect_witness :
  let r := run CleanTrackerGrid.main Samples.grid_block in
  file (snd r) =
    text ["a"; "// SortableWeeklyHabitRow removed/commented out"; "z"]%string
  /\ writes (snd r) = [file (snd r)]
  /\ len (file (snd r)) = len Samples.grid_block - (53 - 2).
Proof.
  destruct (clean_tracker_grid_net_effect Samples.grid_block)
    as (_ & _ & Hcut & Hspan).
  change (Py.find Samples.grid_block CleanTrackerGrid.start_marker)
    with 2 in Hcut, Hspan.
  change (Py.find Samples.grid_block CleanTrackerGrid.end_marker)
    with 53 in Hcut, Hspan.
  destruct (Hcut ltac:(lia) ltac:(lia)) as [Hfile Hw].
  destruct (Hspan ltac:(lia) ltac:(lia) ltac:(lia)) as (Hlen & _).
  cbv zeta.
  split; [rewrite Hfile; reflexivity | split; [exact Hw | exact Hlen]].
Defined.

(** ** The rewrite of the tail (claim C9) *)

Lemma concat_readlines (s : str) : concat (Py.readlines s) = s.
Proof.
  induction s as [|c s IH]; simpl; [reflexivity|].
  destruct (Ascii.eqb c nl).
  - simpl; now rewrite IH.
  - destruct (Py.readlines s) as [|l ls]; simpl in *.
    + now rewrite <- IH.
    + now rewrite <- IH.
Qed.

Lemma slice_to_app_exact {A} (top : list A) (x : A) (rest : list A) :
  Py.slice_to (top ++ x :: rest) (len top + 1) = top ++ [x].
Proof.
  rewrite slice_to_nat by (unfold len; lia).
  replace (Z.to_nat (len top + 1)) with (length top + 1)%nat
    by (unfold len; lia).
  rewrite firstn_app_2; simpl; reflexivity.
Qed.

(** C9, the claim as stated fails.  In [Samples.grid_marker] the marker
    is found at offset 2, the start of the second line, and the file
    written is not the text strictly before that offset followed by
    [new_bottom]: the text kept ends behind the marker line, at
    offset 54. *)
Lemma grid_marker_keeps_marker_line :
  let c := Samples.grid_marker in
  let w := snd (run FixTrackerGrid.main c) in
  Py.find c FixTrackerGrid.marker_tight = 2 /\
  file w <> Py.slice_to c 2 ++ FixTrackerGrid.new_bottom /\
  file w = Py.slice_to c 54 ++ FixTrackerGrid.new_bottom /\
  Py.slice_to c 54 =
    text ["a"; "{/* Weekly Habits Section - Redesigned as Cards */}"]%string.
Proof.
  vm_compute; repeat split; discriminate.
Qed.

(** A line that holds the marker, split at the marker. *)
Lemma marker_line_split (line : str) :
  has_marker line = true ->
  exists m pre post : str,
    (m = FixTrackerGrid.marker_spaced \/ m = FixTrackerGrid.marker_tight) /\
    line = pre ++ m ++ post /\
    len pre = Py.find line m.
Proof.
  unfold has_marker; intros H.
  assert (Hm : exists m,
             (m = FixTrackerGrid.marker_spaced
              \/ m = FixTrackerGrid.marker_tight)
             /\ Py.find line m <> -1).
  { apply orb_true_iff in H as [H | H]; unfold Py.isin in H;
      [exists FixTrackerGrid.marker_spaced
      | exists FixTrackerGrid.marker_tight];
      (split; [auto|]);
      intros E; rewrite E in H; discriminate. }
  destruct Hm as (m & Hm & Hfound).
  destruct (find_first line m Hfound) as [k [Ek [Hk [Hocc _]]]].
  apply startswith_app in Hocc as [post Hpost].
  exists m, (firstn k line), post.
  split; [exact Hm|].
  split; [now rewrite <- Hpost, firstn_skipn|].
  unfold len; rewrite length_firstn, Ek; lia.
Qed.

(** C9, amended: when the marker search of [fix_tracker_grid.py] finds a
    line that holds the marker, the file written is the text of the
    buffer up to the end of the first such line, followed by
    [new_bottom].  The lines above the marker line and the marker line
    itself are kept, all that stood behind that line is removed, and the
    text is written once.  The cut is at the end of the marker line, not
    at the offset where the marker starts: the text strictly before the
    marker followed by [new_bottom] is never the file written. *)
Theorem fix_tracker_grid_keeps_marker_line :
  forall original : str,
    let lines := Py.readlines original in
    let cutoff_index := FixTrackerGrid.search_marker lines 0 in
    cutoff_index <> -1 ->
    exists (top : list str) (line : str) (rest : list str),
      lines = top ++ line :: rest /\
      len top = cutoff_index /\
      Forall (fun l => has_marker l = false) top /\
      has_marker line = true /\
      original = concat top ++ line ++ concat rest /\
      let final_content := concat top ++ line ++ FixTrackerGrid.new_bottom in
      final_content
        = Py.slice_to original (len (concat top) + len line)
          ++ FixTrackerGrid.new_bottom /\
      fst (run FixTrackerGrid.main original) = Ret tt /\
      file (snd (run FixTrackerGrid.main original)) = final_content /\
      writes (snd (run FixTrackerGrid.main original)) = [final_content] /\
      exists m pre post : str,
        (m = FixTrackerGrid.marker_spaced
         \/ m = FixTrackerGrid.marker_tight) /\
        line = pre ++ m ++ post /\
        len pre = Py.find line m /\
        file (snd (run FixTrackerGrid.main original))
        <> Py.slice_to original (len (concat top) + len pre)
           ++ FixTrackerGrid.new_bottom.
Proof.
  intros original lines cutoff_index Hfound.
  destruct (search_marker_spec lines 0 ltac:(lia))
    as [[Hn _] | (top & line & rest & Hl & Hs & Hm & Hall)];
    [contradiction|].
  assert (Horig : original = concat top ++ line ++ concat rest).
  { rewrite <- (concat_readlines original); fold lines.
    rewrite Hl, concat_app; reflexivity. }
  assert (Hkept : Py.join (Py.slice_to lines (cutoff_index + 1))
                  = concat top ++ line).
  { unfold cutoff_index; rewrite Hs, Hl.
    replace (0 + len top + 1) with (len top + 1) by lia.
    rewrite slice_to_app_exact.
    unfold Py.join; rewrite concat_app; simpl.
    rewrite app_nil_r; reflexivity. }
  assert (Hfile : file (snd (run FixTrackerGrid.main original))
                  = concat top ++ line ++ FixTrackerGrid.new_bottom
                  /\ fst (run FixTrackerGrid.main original) = Ret tt
                  /\ writes (snd (run FixTrackerGrid.main original))
                     = [concat top ++ line ++ FixTrackerGrid.new_bottom]).
  { rewrite fix_tracker_grid_run; cbv zeta.
    fold lines; fold cutoff_index.
    destruct (Z.eqb_spec cutoff_index (-1)) as [E | _]; [contradiction|].
    simpl; rewrite Hkept, <- app_assoc.
    repeat split; reflexivity. }
  destruct Hfile as (Hfile & Hret & Hwrites).
  assert (Hslice : forall p q : str,
            Py.slice_to (concat top ++ p ++ q) (len (concat top) + len p)
            = concat top ++ p).
  { intros p q.
    rewrite slice_to_nat
      by (pose proof (len_nonneg (concat top));
          pose proof (len_nonneg p); lia).
    rewrite <- len_app; unfold len; rewrite Nat2Z.id.
    rewrite (app_assoc (concat top) p q).
    rewrite firstn_app, Nat.sub_diag, firstn_all; simpl.
    apply app_nil_r. }
  exists top, line, rest.
  split; [exact Hl|].
  split; [unfold cutoff_index; lia|].
  split; [exact Hall|].
  split; [exact Hm|].
  split; [exact Horig|].
  cbv zeta.
  split; [rewrite Horig at 1; rewrite Hslice, <- app_assoc; reflexivity|].
  split; [exact Hret|].
  split; [exact Hfile|].
  split; [exact Hwrites|].
  destruct (marker_line_split line Hm) as (m & pre & post & Hwhich & Hline & Hpre).
  exists m, pre, post.
  split; [exact Hwhich|].
  split; [exact Hline|].
  split; [exact Hpre|].
  rewrite Hfile, Horig, Hline.
  rewrite <- (app_assoc pre (m ++ post) (concat rest)).
  rewrite Hslice.
  rewrite <- !app_assoc.
  intros E.
  apply app_inv_head in E; apply app_inv_head in E.
  apply (f_equal (@length ascii)) in E.
  rewrite !length_app in E.
  assert (0 < length m)%nat by (destruct Hwhich as [-> | ->]; simpl; lia).
  lia.
Qed.

Lemma fix_tracker_grid_keeps_marker_line_witness :
  let c := Samples.grid_marker in
  FixTrackerGrid.search_marker (Py.readlines c) 0 = 1 /\
  exists (top : list str) (line : str) (rest : list str),
    Py.readlines c = top ++ line :: rest /\
    len top = 1 /\
    file (snd (run FixTrackerGrid.main c))
      = concat top ++ line ++ FixTrackerGrid.new_bottom.
Proof.
  cbv zeta; split; [reflexivity|].
  destruct (fix_tracker_grid_keeps_marker_line Samples.grid_marker)
    as (top & line & rest & Hl & Hlen & _ & _ & _ & _ & _ & Hfile & _).
  - vm_compute; discriminate.
  - exists top, line, rest.
    split; [exact Hl|].
    split; [exact Hlen | exact Hfile].
Defined.

(** ** The line scan (claims C6, C7) *)

Section LineScan.
Import CleanTrackerGrid ScanPredicates.

Lemma str_eqb_eq (a b : str) : str_eqb a b = true <-> a = b.
Proof.
  revert b; induction a as [|x a IH]; intros [|y b]; simpl;
    try (split; [discriminate | discriminate]); [tauto|].
  rewrite andb_true_iff, Ascii.eqb_eq, IH.
  split; [intros [-> ->]; reflexivity | intros H; injection H; auto].
Qed.

Lemma isin_incl (sub s : str) : Py.isin sub s = true -> incl sub s.
Proof.
  unfold Py.isin; intros H.
  destruct (Z.eqb_spec (Py.find s sub) (-1)) as [E | E]; [discriminate|].
  destruct (find_first s sub E) as [k [_ [_ [Hocc _]]]].
  apply startswith_app in Hocc as [t Ht].
  intros c Hc.
  rewrite <- (firstn_skipn k s), Ht.
  apply in_or_app; right; apply in_or_app; now left.
Qed.

Lemma lstrip_keeps (c : ascii) (s : str) :
  In c s -> Py.isspace c = true \/ In c (Py.lstrip s).
Proof.
  induction s as [|x s IH]; simpl; [tauto|].
  destruct (Py.isspace x) eqn:E.
  - intros [-> | H]; [now left | now apply IH].
  - intros H; now right.
Qed.

(** Every character of a line is white space or survives [strip]. *)
Lemma strip_keeps (c : ascii) (s : str) :
  In c s -> Py.isspace c = true \/ In c (Py.strip s).
Proof.
  intros H; unfold Py.strip.
  destruct (lstrip_keeps c s H) as [? | H1]; [now left|].
  apply in_rev in H1.
  destruct (lstrip_keeps c _ H1) as [? | H2]; [now left|].
  right; now apply -> in_rev.
Qed.

(** A line that is a lone closing brace holds no text with a character
    other than white space, a brace and a semicolon. *)
Lemma close_excludes (marker : str) (c : ascii) (line : str) :
  In c marker -> Py.isspace c = false -> ~ In c (lit "};") ->
  is_close line = true -> Py.isin marker line = false.
Proof.
  intros Hc Hsp Hnot Hclose.
  destruct (Py.isin marker line) eqn:E; [exfalso | reflexivity].
  apply str_eqb_eq in Hclose.
  destruct (strip_keeps c line (isin_incl _ _ E c Hc)) as [H | H].
  - congruence.
  - rewrite Hclose in H; contradiction.
Qed.

Lemma close_has_no_marker (line : str) :
  is_close line = true ->
  has_start line = false /\ has_end line = false /\ has_log line = false.
Proof.
  intros H; repeat split.
  - apply (close_excludes start_marker "c" line); auto;
      [vm_compute; tauto | vm_compute; intuition discriminate].
  - apply (close_excludes end_marker "/" line); auto;
      [vm_compute; tauto | vm_compute; intuition discriminate].
  - apply (close_excludes log_marker "c" line); auto;
      [vm_compute; tauto | vm_compute; intuition discriminate].
Qed.

(** One turn of the loop is one row of [loop_table]. *)
Lemma scan_step_table (new_lines : list str) (skip : bool) (line : str) :
  scan_step (new_lines, skip) line =
  (if fst (loop_table (state_of_skip skip) line)
   then new_lines ++ [line] else new_lines,
   is_skipping (snd (loop_table (state_of_skip skip) line))).
Proof.
  unfold scan_step, loop_table, opens.
  fold (has_start line) (has_end line) (has_log line) (is_close line).
  destruct (is_close line) eqn:Hc.
  - destruct (close_has_no_marker line Hc) as (-> & -> & ->).
    destruct skip; reflexivity.
  - destruct (has_start line), (has_end line), (has_log line), skip;
      reflexivity.
Qed.

Lemma state_of_is_skipping (st : scan_state) :
  state_of_skip (is_skipping st) = st.
Proof. destruct st; reflexivity. Qed.

Lemma fold_scan_table (lines : list str) :
  forall (new_lines : list str) (skip : bool),
    fold_left scan_step lines (new_lines, skip) =
    (new_lines ++ fst (table_run loop_table (state_of_skip skip) lines),
     is_skipping (snd (table_run loop_table (state_of_skip skip) lines))).
Proof.
  induction lines as [|line lines IH]; intros new_lines skip;
    cbn [fold_left table_run].
  - simpl; rewrite app_nil_r; destruct skip; reflexivity.
  - rewrite scan_step_table.
    destruct (loop_table (state_of_skip skip) line) as [copy st'] eqn:E.
    simpl fst; simpl snd.
    rewrite IH, state_of_is_skipping.
    destruct (table_run loop_table st' lines) as [out final]; simpl.
    destruct copy; [rewrite <- app_assoc|]; reflexivity.
Qed.

Lemma line_scan_table (lines : list str) :
  table_run loop_table Copying lines =
  (fst (line_scan lines), state_of_skip (snd (line_scan lines))).
Proof.
  unfold line_scan; rewrite fold_scan_table; simpl.
  rewrite state_of_is_skipping.
  destruct (table_run loop_table Copying lines); reflexivity.
Qed.

(** Away from the end comment the loop follows the table of the
    specification. *)
Lemma spec_table_agrees (st : scan_state) (line : str) :
  has_end line = false ->
  spec_table startPredicate endPredicate st line = loop_table st line.
Proof.
  intros He.
  unfold spec_table, loop_table, startPredicate, endPredicate, opens.
  rewrite He; simpl.
  destruct (is_close line) eqn:Hc.
  - destruct (close_has_no_marker line Hc) as (-> & _ & ->).
    destruct st; reflexivity.
  - destruct st, (has_start line), (has_log line); reflexivity.
Qed.

Lemma table_run_agrees (lines : list str) :
  Forall (fun l => has_end l = false) lines ->
  forall st,
    table_run (spec_table startPredicate endPredicate) st lines
    = table_run loop_table st lines.
Proof.
  induction 1 as [|line lines He _ IH]; intros st; simpl; [reflexivity|].
  rewrite (spec_table_agrees st line He).
  destruct (loop_table st line) as [copy st'].
  now rewrite IH.
Qed.

End LineScan.

(** C7, the claim as stated fails: in [Samples.closed_by_comment] the
    third line holds the end comment and is met while skipping.  The table
    of the specification consumes it, if the end comment counts as an end,
    or skips on to the end of input, if only a lone closing brace does;
    the loop copies that line and what follows it.  And the line
    [Samples.start_and_end_comment] matches the start predicate, so the
    table of the specification does not emit it and goes on skipping; the
    loop, met with it while copying, emits it and goes on copying. *)
Lemma end_comment_line_is_copied :
  fst (table_run
         (spec_table ScanPredicates.startPredicate ScanPredicates.endPredicate)
         Copying Samples.closed_by_comment)
  = [lit "y"] /\
  table_run
    (spec_table ScanPredicates.startPredicate ScanPredicates.is_close)
    Copying Samples.closed_by_comment
  = ([], Skipping) /\
  CleanTrackerGrid.line_scan Samples.closed_by_comment
  = ([lit "// SortableWeeklyHabitRow removed/commented out"; lit "y"], false) /\
  ScanPredicates.startPredicate Samples.start_and_end_comment = true /\
  spec_table ScanPredicates.startPredicate ScanPredicates.endPredicate
    Copying Samples.start_and_end_comment
  = (false, Skipping) /\
  CleanTrackerGrid.line_scan [Samples.start_and_end_comment]
  = ([Samples.start_and_end_comment], false).
Proof.
  vm_compute; repeat split.
Qed.

(** C7, amended: one turn of the loop of [clean_tracker_grid.py] follows
    this table, for every line.  While copying: a line that holds the
    handleOpenChoiceLog text, or that holds the WeeklyHabitRowContent text
    and not the end comment, is not emitted and the loop goes on skipping;
    every other line is emitted and the loop goes on copying, so a line
    that holds the WeeklyHabitRowContent text together with the end comment
    (and not the handleOpenChoiceLog text) is emitted.  While skipping: a
    line that holds the handleOpenChoiceLog text is not emitted and the
    skip goes on; otherwise a line that holds the end comment is emitted
    and the loop goes on copying; otherwise a lone closing brace is
    consumed, not emitted, and the loop goes on copying; any other line,
    also one with a further WeeklyHabitRowContent start, is not emitted
    and the skip goes on.  No depth is counted: after a lone closing
    brace the loop is copying, whatever number of starts came before.
    For every line sequence the loop emits exactly the lines this table,
    [loop_table], gives and ends in its final state; on a sequence in
    which no line holds the end comment, that is the table of the
    specification with the start predicate "holds either start text" and
    the end predicate "holds the end comment or is a lone closing
    brace". *)
Theorem line_scan_follows_loop_table :
  forall lines : list str,
    table_run ScanPredicates.loop_table Copying lines =
      (fst (CleanTrackerGrid.line_scan lines),
       state_of_skip (snd (CleanTrackerGrid.line_scan lines))) /\
    (Forall (fun l => ScanPredicates.has_end l = false) lines ->
     table_run
       (spec_table ScanPredicates.startPredicate ScanPredicates.endPredicate)
       Copying lines
     = (fst (CleanTrackerGrid.line_scan lines),
        state_of_skip (snd (CleanTrackerGrid.line_scan lines)))) /\
    (forall line, ScanPredicates.is_close line = true ->
       snd (CleanTrackerGrid.line_scan (lines ++ [line])) = false) /\
    (forall (new_lines : list str) (line : str),
       let has_start := ScanPredicates.has_start line in
       let has_end := ScanPredicates.has_end line in
       let has_log := ScanPredicates.has_log line in
       let is_close := ScanPredicates.is_close line in
       let turn (skip : bool) :=
         CleanTrackerGrid.scan_step (new_lines, skip) line in
       (has_log = true \/ (has_start = true /\ has_end = false) ->
        turn false = (new_lines, true)) /\
       (has_log = false -> has_start = false \/ has_end = true ->
        turn false = (new_lines ++ [line], false)) /\
       (has_log = true ->
        turn true = (new_lines, true)) /\
       (has_log = false -> has_end = true ->
        turn true = (new_lines ++ [line], false)) /\
       (has_log = false -> has_end = false -> is_close = true ->
        turn true = (new_lines, false)) /\
       (has_log = false -> has_end = false -> is_close = false ->
        turn true = (new_lines, true))).
Proof.
  intros lines; split; [apply line_scan_table | split; [|split]].
  - intros H; rewrite table_run_agrees by exact H; apply line_scan_table.
  - intros line Hc.
    unfold CleanTrackerGrid.line_scan; rewrite fold_left_app.
    cbn [fold_left].
    destruct (fold_left CleanTrackerGrid.scan_step lines ([], false))
      as [new_lines skip].
    rewrite scan_step_table; simpl.
    unfold ScanPredicates.loop_table, ScanPredicates.opens.
    destruct (close_has_no_marker line Hc) as (-> & -> & ->).
    rewrite Hc; destruct skip; reflexivity.
  - intros new_lines line; cbv beta zeta.
    rewrite !scan_step_table; simpl state_of_skip.
    unfold ScanPredicates.loop_table, ScanPredicates.opens.
    split; [|split; [|split; [|split; [|split]]]].
    + intros [-> | [-> ->]]; [reflexivity|].
      destruct (ScanPredicates.has_log line); reflexivity.
    + intros -> [-> | ->]; [reflexivity|].
      destruct (ScanPredicates.has_start line); reflexivity.
    + intros ->; reflexivity.
    + intros -> ->; reflexivity.
    + intros -> -> ->; reflexivity.
    + intros -> -> ->; reflexivity.
Qed.

Lemma line_scan_follows_loop_table_witness :
  table_run
    (spec_table ScanPredicates.startPredicate ScanPredicates.endPredicate)
    Copying (map lit ["a"; "const handleOpenChoiceLog = () => {";
                      "const WeeklyHabitRowContent = ({"; "  };"; "b"]%string)
  = ([lit "a"; lit "b"], Copying) /\
  snd (CleanTrackerGrid.line_scan
         (Samples.unterminated ++ [lit "  };"])) = false /\
  CleanTrackerGrid.scan_step ([lit "a"], false) Samples.start_and_end_comment
  = ([lit "a"; Samples.start_and_end_comment], false).
Proof.
  destruct (line_scan_follows_loop_table
              (map lit ["a"; "const handleOpenChoiceLog = () => {";
                        "const WeeklyHabitRowContent = ({"; "  };"; "b"]%string))
    as (_ & Hspec & _).
  destruct (line_scan_follows_loop_table Samples.unterminated)
    as (_ & _ & Hflat & Hrows).
  destruct (Hrows [lit "a"] Samples.start_and_end_comment)
    as (_ & Hcopy & _).
  split; [|split].
  - rewrite Hspec; [reflexivity|].
    repeat constructor.
  - apply Hflat; reflexivity.
  - apply Hcopy; [reflexivity | right; reflexivity].
Defined.

Section UnterminatedSkip.
Import CleanTrackerGrid ScanPredicates.

Lemma table_run_app (table : scan_state -> str -> bool * scan_state)
    (a b : list str) :
  forall st,
    table_run table st (a ++ b) =
    (fst (table_run table st a)
     ++ fst (table_run table (snd (table_run table st a)) b),
     snd (table_run table (snd (table_run table st a)) b)).
Proof.
  induction a as [|l a IH]; intros st; simpl.
  - destruct (table_run table st b); reflexivity.
  - destruct (table st l) as [copy st'].
    rewrite IH.
    destruct (table_run table st' a) as [o1 s1]; simpl.
    destruct (table_run table s1 b) as [o2 s2]; simpl.
    destruct copy; reflexivity.
Qed.

(** Lines that open nothing are all copied. *)
Lemma copy_run (pre : list str) :
  Forall (fun l => opens l = false) pre ->
  table_run loop_table Copying pre = (pre, Copying).
Proof.
  induction 1 as [|l pre Hl _ IH]; simpl; [reflexivity|].
  rewrite Hl, IH; reflexivity.
Qed.

(** Lines that end nothing are all dropped while skipping. *)
Lemma skip_run (post : list str) :
  Forall (fun l => endPredicate l = false) post ->
  table_run loop_table Skipping post = ([], Skipping).
Proof.
  induction 1 as [|l post Hl _ IH]; simpl; [reflexivity|].
  unfold endPredicate in Hl; apply orb_false_iff in Hl as [-> ->].
  destruct (has_log l); rewrite IH; reflexivity.
Qed.




End UnterminatedSkip.




(** ** The blank-line pass (claim C8) *)

Section BlankLines.
Import CleanHabitModal.

Lemma isspace_nl : Py.isspace nl = true.
Proof. reflexivity. Qed.

Lemma text_start_not_nl (c : ascii) (b : str) :
  text_start (c :: b) -> Ascii.eqb nl c = false.
Proof.
  unfold text_start; intros H.
  destruct (Ascii.eqb_spec nl c) as [<- | _]; [|reflexivity].
  rewrite isspace_nl in H; discriminate.
Qed.

Lemma tail_nl_cons (c : ascii) (s : str) :
  tail_nl (c :: s) = if Ascii.eqb nl c then Some 1%nat else None.
Proof. unfold tail_nl; simpl; destruct (Ascii.eqb nl c); reflexivity. Qed.

Lemma tail_nl_text (b : str) : text_start b -> tail_nl b = None.
Proof.
  destruct b as [|c b]; [reflexivity|]; intros H.
  now rewrite tail_nl_cons, (text_start_not_nl c b H).
Qed.

Lemma upto_last_nl_cons (c : ascii) (w : str) :
  upto_last_nl (c :: w) =
  match upto_last_nl w with
  | Some n => Some (S n)
  | None => if Ascii.eqb nl c then Some 1%nat else None
  end.
Proof. simpl; rewrite (Ascii.eqb_sym c nl); reflexivity. Qed.

(** [\s*\n] over a run of white space followed by text: it ends at the
    last newline of the run. *)
Lemma tail_space_nl_run (w b : str) :
  Forall (fun c => Py.isspace c = true) w -> text_start b ->
  tail_space_nl (w ++ b) = upto_last_nl w.
Proof.
  intros Hw Hb; induction Hw as [|c w Hc _ IH].
  - simpl app; unfold tail_space_nl; simpl Re.match_here.
    fold tail_nl.
    destruct b as [|c b]; simpl; [reflexivity|].
    simpl in Hb; rewrite Hb.
    apply (tail_nl_text (c :: b)); exact Hb.
  - rewrite upto_last_nl_cons, <- IH.
    unfold tail_space_nl; simpl; rewrite Hc.
    destruct (Re.star Re.Space _ (w ++ b)); [reflexivity|].
    destruct (Ascii.eqb nl c); reflexivity.
Qed.

Lemma tail_nl_space_nl_cons (c : ascii) (s : str) :
  tail_nl_space_nl (c :: s) =
  if Ascii.eqb nl c then option_map S (tail_space_nl s) else None.
Proof. unfold tail_nl_space_nl, tail_space_nl; simpl; reflexivity. Qed.

Lemma newlines_cons (c : ascii) (w : str) :
  newlines (c :: w) = ((if Ascii.eqb nl c then 1 else 0) + newlines w)%nat.
Proof.
  unfold newlines; cbn [count_occ].
  destruct (ascii_dec c nl) as [-> | Hne].
  - rewrite Ascii.eqb_refl; reflexivity.
  - destruct (Ascii.eqb_spec nl c) as [E | _]; [congruence | reflexivity].
Qed.

Lemma upto_last_nl_none (w : str) :
  upto_last_nl w = None <-> newlines w = O.
Proof.
  induction w as [|c w IH]; [simpl; tauto|].
  rewrite upto_last_nl_cons, newlines_cons.
  destruct (upto_last_nl w) as [n|].
  - split; [discriminate|].
    intros H; assert (newlines w = O) by lia.
    apply IH in H0; discriminate.
  - assert (newlines w = O) as -> by now apply IH.
    destruct (Ascii.eqb nl c); split; (discriminate || reflexivity).
Qed.

(** [\s*\n\s*\n] over such a run: it needs two newlines, and then ends at
    the last one as well. *)
Lemma two_newlines_run (w b : str) :
  Forall (fun c => Py.isspace c = true) w -> text_start b ->
  Re.star Re.Space tail_nl_space_nl (w ++ b) =
  if (2 <=? newlines w)%nat then upto_last_nl w else None.
Proof.
  intros Hw Hb; induction Hw as [|c w Hc Hw IH].
  - simpl app; change (newlines []) with O; simpl.
    destruct b as [|c b]; simpl; [reflexivity|].
    simpl in Hb; rewrite Hb.
    rewrite tail_nl_space_nl_cons, (text_start_not_nl c b Hb); reflexivity.
  - simpl app; simpl Re.star; rewrite Hc, IH.
    rewrite upto_last_nl_cons, newlines_cons.
    destruct (Nat.leb_spec 2 (newlines w)) as [H2 | H2].
    + destruct (upto_last_nl w) as [n|] eqn:E.
      * destruct (Nat.leb_spec 2 ((if Ascii.eqb nl c then 1 else 0)
                                  + newlines w)); [reflexivity | lia].
      * apply upto_last_nl_none in E; lia.
    + rewrite tail_nl_space_nl_cons, (tail_space_nl_run w b Hw Hb).
      destruct (Ascii.eqb nl c); cbn [Nat.add].
      * destruct (upto_last_nl w) as [n|] eqn:E.
        -- assert (newlines w <> O)
             by (intros H0; apply upto_last_nl_none in H0; congruence).
           destruct (Nat.leb_spec 2 (S (newlines w))); [reflexivity | lia].
        -- apply upto_last_nl_none in E; rewrite E; reflexivity.
      * destruct (Nat.leb_spec 2 (newlines w)); [lia|].
        destruct (upto_last_nl w); reflexivity.
Qed.

(** The whole pattern at a newline that is followed by such a run. *)
Lemma blank_lines_match (w b : str) :
  Forall (fun c => Py.isspace c = true) w -> text_start b ->
  Re.match_here pat_blank_lines (nl :: w ++ b) =
  if (2 <=? newlines w)%nat then option_map S (upto_last_nl w) else None.
Proof.
  intros Hw Hb.
  change (Re.match_here pat_blank_lines (nl :: w ++ b))
    with (option_map S (Re.star Re.Space tail_nl_space_nl (w ++ b))).
  rewrite two_newlines_run by assumption.
  destruct (2 <=? newlines w)%nat; reflexivity.
Qed.

Lemma blank_lines_no_match (c : ascii) (s : str) :
  c <> nl -> Re.match_here pat_blank_lines (c :: s) = None.
Proof.
  intros Hc; unfold pat_blank_lines.
  cbn [Re.match_here Re.one Re.accepts].
  destruct (Ascii.eqb_spec nl c); [congruence | reflexivity].
Qed.

(** Text without a newline is copied. *)
Lemma cleanup_copies_line (a s : str) :
  Forall (fun c => c <> nl) a ->
  cleanup_blank_lines (a ++ s) = a ++ cleanup_blank_lines s.
Proof.
  unfold cleanup_blank_lines, Re.sub.
  induction 1 as [|c a Hc _ IH]; [reflexivity|].
  simpl app; rewrite scan_replace_no_match
    by (apply blank_lines_no_match; exact Hc).
  now rewrite IH.
Qed.

(** White space with fewer than two newlines is copied. *)
Lemma cleanup_copies_short_run (w b : str) :
  Forall (fun c => Py.isspace c = true) w -> text_start b ->
  (newlines w < 2)%nat ->
  cleanup_blank_lines (w ++ b) = w ++ cleanup_blank_lines b.
Proof.
  unfold cleanup_blank_lines, Re.sub.
  intros Hw Hb; induction Hw as [|c w Hc Hw IH]; intros Hn; [reflexivity|].
  rewrite newlines_cons in Hn.
  simpl app; rewrite scan_replace_no_match.
  - rewrite IH by lia; reflexivity.
  - destruct (Ascii.eqb_spec nl c) as [<- | Hne].
    + rewrite blank_lines_match by assumption.
      destruct (Nat.leb_spec 2 (newlines w)); [lia | reflexivity].
    + apply blank_lines_no_match; congruence.
Qed.

Lemma upto_last_nl_some (w : str) (n : nat) :
  upto_last_nl w = Some n ->
  (n <= length w)%nat /\ newlines (skipn n w) = O.
Proof.
  revert n; induction w as [|c w IH]; intros n; [discriminate|].
  rewrite upto_last_nl_cons.
  destruct (upto_last_nl w) as [m|] eqn:E.
  - intros H; injection H as <-.
    destruct (IH m eq_refl); simpl; split; [lia | assumption].
  - destruct (Ascii.eqb nl c); [|discriminate].
    intros H; injection H as <-; simpl; split; [lia|].
    now apply upto_last_nl_none.
Qed.

Lemma Forall_skipn {A} (P : A -> Prop) (n : nat) (l : list A) :
  Forall P l -> Forall P (skipn n l).
Proof.
  revert l; induction n as [|n IH]; intros l H; [exact H|].
  destruct H; simpl; [constructor | now apply IH].
Qed.

(** The pass on one newline and the run of white space behind it. *)
Lemma cleanup_run (w b : str) :
  Forall (fun c => Py.isspace c = true) w -> text_start b ->
  cleanup_blank_lines (nl :: w ++ b) =
  (if (2 <=? newlines w)%nat then [nl; nl] ++ after_last_nl w else nl :: w)
  ++ cleanup_blank_lines b.
Proof.
  intros Hw Hb.
  pose proof (blank_lines_match w b Hw Hb) as Hm.
  destruct (Nat.leb_spec 2 (newlines w)) as [H2 | H2].
  - destruct (upto_last_nl w) as [n|] eqn:E;
      [|apply upto_last_nl_none in E; lia].
    destruct (upto_last_nl_some w n E) as [Hn H0].
    unfold cleanup_blank_lines, Re.sub.
    rewrite (scan_replace_match _ _ nl (w ++ b) n Hm)
      by (rewrite length_app; lia).
    unfold after_last_nl; rewrite E.
    rewrite skipn_app.
    replace (n - length w)%nat with O by lia; simpl skipn.
    rewrite <- !app_assoc; f_equal.
    apply (cleanup_copies_short_run (skipn n w) b);
      [now apply Forall_skipn | assumption | lia].
  - unfold cleanup_blank_lines, Re.sub.
    rewrite scan_replace_no_match by exact Hm.
    simpl; f_equal.
    apply (cleanup_copies_short_run w b); assumption.
Qed.

End BlankLines.

(** C8, the claim as stated fails: [Samples.two_blank_lines] holds a run of
    two blank lines, fewer than three, and the pass does not leave it
    unchanged.  And [Samples.three_blank_lines_first] begins with a run of
    three blank lines, of which the pass leaves two, not one. *)
Lemma two_blank_lines_are_collapsed :
  Samples.two_blank_lines = lit "a" ++ [nl; nl; nl] ++ lit "b" ++ [nl] /\
  CleanHabitModal.cleanup_blank_lines Samples.two_blank_lines
  = lit "a" ++ [nl; nl] ++ lit "b" ++ [nl] /\
  CleanHabitModal.cleanup_blank_lines Samples.two_blank_lines
  <> Samples.two_blank_lines /\
  Samples.three_blank_lines_first = [nl; nl; nl] ++ lit "b" ++ [nl] /\
  CleanHabitModal.cleanup_blank_lines Samples.three_blank_lines_first
  = [nl; nl] ++ lit "b" ++ [nl] /\
  CleanHabitModal.cleanup_blank_lines Samples.three_blank_lines_first
  <> [nl] ++ lit "b" ++ [nl].
Proof.
  vm_compute; repeat split; discriminate.
Qed.

(** C8, amended: the pass works on newlines.  In a buffer made of a first
    line [a] (text without a newline, possibly empty), a newline, a run
    [w] of white space and a rest [b] that starts with text, the newline
    and the run become exactly two newlines followed by what stood after
    the last newline of [w] when [w] holds at least two newlines, and are
    left unchanged when [w] holds fewer than two; the line [a] is copied,
    and the pass goes on in the same way over [b].  So when two or more
    blank or white-only lines stand between the line [a] and the text
    [b], exactly one blank line is left between them, and a single blank
    line is left unchanged.  The line [a] itself stays, also when it is
    blank: at the head of the buffer ["\n\nb\n"] is left unchanged and
    ["\n\n\nb\n"] becomes ["\n\nb\n"].  In [clean_habit_modal.py] the pass
    works on the whole buffer and runs once, over what all other steps
    have produced, and its result is what is written.  On
    ["a\n\n\n\nb\n"] it yields ["a\n\nb\n"]. *)
Theorem cleanup_collapses_two_or_more_blank_lines :
  forall (a w b : str),
    Forall (fun c => c <> nl) a ->
    Forall (fun c => Py.isspace c = true) w ->
    text_start b ->
    CleanHabitModal.cleanup_blank_lines a = a /\
    CleanHabitModal.cleanup_blank_lines (a ++ nl :: w ++ b) =
      a
      ++ (if (2 <=? newlines w)%nat then [nl; nl] ++ after_last_nl w
          else nl :: w)
      ++ CleanHabitModal.cleanup_blank_lines b /\
    (forall original : str,
       let content := CleanHabitModal.early_passes original in
       file (snd (run CleanHabitModal.main original))
       = CleanHabitModal.cleanup_blank_lines
           match marker_cut CleanHabitModal.start_marker
                   CleanHabitModal.end_marker content with
           | Some cut => cut
           | None => content
           end) /\
    CleanHabitModal.cleanup_blank_lines Samples.example3
    = text ["a"; ""; "b"]%string /\
    CleanHabitModal.cleanup_blank_lines Samples.two_blank_lines_first
    = Samples.two_blank_lines_first /\
    CleanHabitModal.cleanup_blank_lines Samples.three_blank_lines_first
    = Samples.two_blank_lines_first.
Proof.
  intros a w b Ha Hw Hb; split; [|split; [|split; [|split; [|split]]]].
  - rewrite <- (app_nil_r a) at 1.
    rewrite (cleanup_copies_line a [] Ha), app_nil_r; reflexivity.
  - rewrite (cleanup_copies_line a _ Ha), (cleanup_run w b Hw Hb).
    reflexivity.
  - intros original content.
    rewrite clean_habit_modal_run; cbv zeta; fold content.
    destruct (marker_cut _ _ content) as [cut|]; reflexivity.
  - vm_compute; reflexivity.
  - vm_compute; reflexivity.
  - vm_compute; reflexivity.
Qed.

Lemma cleanup_collapses_two_or_more_blank_lines_witness :
  CleanHabitModal.cleanup_blank_lines
    (lit "a" ++ nl :: (nl :: lit "  " ++ nl :: lit "  ") ++ lit "b")
  = lit "a" ++ [nl; nl] ++ lit "  " ++ lit "b" /\
  CleanHabitModal.cleanup_blank_lines
    (lit "a" ++ nl :: [nl] ++ lit "b")
  = lit "a" ++ [nl; nl] ++ lit "b" /\
  CleanHabitModal.cleanup_blank_lines ([] ++ nl :: [nl; nl] ++ lit "b")
  = [] ++ ([nl; nl] ++ []) ++ lit "b".
Proof.
  split; [|split].
  - refine (proj1 (proj2 (cleanup_collapses_two_or_more_blank_lines
             (lit "a") (nl :: lit "  " ++ nl :: lit "  ") (lit "b") _ _ _))).
    + repeat constructor; discriminate.
    + repeat constructor.
    + reflexivity.
  - refine (proj1 (proj2 (cleanup_collapses_two_or_more_blank_lines
             (lit "a") [nl] (lit "b") _ _ _))).
    + repeat constructor; discriminate.
    + repeat constructor.
    + reflexivity.
  - refine (proj1 (proj2 (cleanup_collapses_two_or_more_blank_lines
             [] [nl; nl] (lit "b") _ _ _))).
    + constructor.
    + repeat constructor.
    + reflexivity.
Defined.

(** ** A second application of the cut (claim C3) *)








(** The lines above the last one are read back line by line. *)
Lemma readlines_prefix (s t : str) :
  forall n, (n < length (Py.readlines s))%nat ->
    Py.readlines (concat (firstn n (Py.readlines s)) ++ t)
    = firstn n (Py.readlines s) ++ Py.readlines t.
Proof.
  induction s as [|c s IH]; intros n Hn; [simpl in Hn; lia|].
  destruct n as [|n]; [reflexivity|].
  simpl Py.readlines in *.
  destruct (Ascii.eqb_spec c nl) as [-> | Hc].
  - simpl in Hn |- *.
    rewrite IH by lia; reflexivity.
  - destruct (Py.readlines s) as [|l ls] eqn:E.
    + simpl in Hn; lia.
    + simpl in Hn.
      specialize (IH (S n) ltac:(simpl; lia)).
      simpl firstn in IH |- *; simpl concat in IH |- *.
      change ((c :: l ++ concat (firstn n ls)) ++ t)
        with (c :: ((l ++ concat (firstn n ls)) ++ t)).
      cbn [Py.readlines].
      destruct (Ascii.eqb_spec c nl) as [? | _]; [contradiction|].
      rewrite IH; reflexivity.
Qed.

Lemma search_marker_found (top : list str) (line : str) (rest : list str) :
  Forall (fun l => has_marker l = false) top ->
  has_marker line = true ->
  forall i, FixTrackerGrid.search_marker (top ++ line :: rest) i = i + len top.
Proof.
  intros Htop Hline; induction Htop as [|l top Hl _ IH]; intros i; simpl.
  - unfold has_marker in Hline.
    destruct (Py.isin FixTrackerGrid.marker_spaced line);
      [unfold len; simpl; lia|].
    simpl in Hline; rewrite Hline; unfold len; simpl; lia.
  - unfold has_marker in Hl; apply orb_false_iff in Hl as [-> ->].
    rewrite IH; unfold len; simpl length; lia.
Qed.



(** * Further properties of the scripts *)

(** ** The fallback search of [fix_tracker_grid.py] *)

Lemma search_marker_none (lines : list str) :
  Forall (fun l => has_marker l = false) lines ->
  forall i, FixTrackerGrid.search_marker lines i = -1.
Proof.
  induction 1 as [|l lines Hl _ IH]; intros i; simpl; [reflexivity|].
  unfold has_marker in Hl; apply orb_false_iff in Hl as [-> ->].
  apply IH.
Qed.

(** The fallback needs a line index above 1200. *)
Lemma search_fallback_short (lines : list str) :
  forall i, i + len lines <= 1201 ->
    FixTrackerGrid.search_fallback lines i = -1.
Proof.
  induction lines as [|l lines IH]; intros i Hi; simpl; [reflexivity|].
  unfold len in Hi; simpl length in Hi.
  destruct (Z.ltb_spec 1200 i); [lia|].
  rewrite andb_false_r; apply IH; unfold len; lia.
Qed.

Lemma search_fallback_found (top : list str) (line : str) (rest : list str) :
  Py.isin FixTrackerGrid.fallback_text line = true ->
  forall i,
    (forall (k : nat) (l : str),
       nth_error top k = Some l -> 1200 < i + Z.of_nat k ->
       Py.isin FixTrackerGrid.fallback_text l = false) ->
    1200 < i + len top ->
    FixTrackerGrid.search_fallback (top ++ line :: rest) i = i + len top - 1.
Proof.
  intros Hline; induction top as [|l top IH]; intros i Hskip Hi; simpl.
  - unfold len in Hi; simpl in Hi.
    rewrite Hline; destruct (Z.ltb_spec 1200 i); [|lia].
    unfold len; simpl; lia.
  - assert (Hl : Py.isin FixTrackerGrid.fallback_text l && (1200 <? i)
                 = false).
    { destruct (Z.ltb_spec 1200 i); [|apply andb_false_r].
      rewrite (Hskip O l eq_refl) by lia; reflexivity. }
    rewrite Hl, IH.
    + unfold len; simpl length; lia.
    + intros k l' Hk Hlt; apply (Hskip (S k) l' Hk); lia.
    + unfold len in *; simpl length in Hi; lia.
Qed.

(** X1: a file of at most 1201 lines in which no line holds the marker is
    never rewritten by [fix_tracker_grid.py]: the fallback only looks at
    lines with an index above 1200, so the script prints its two messages,
    leaves through [exit(1)] and writes nothing. *)
Theorem fix_tracker_grid_short_file_is_left_alone :
  forall original : str,
    len (Py.readlines original) <= 1201 ->
    Forall (fun l => has_marker l = false) (Py.readlines original) ->
    run FixTrackerGrid.main original =
    (Exited 1,
     World original []
       [lit "Could not find cutoff point";
        lit "Really could not find cutoff"]).
Proof.
  intros original Hshort Hnone.
  rewrite fix_tracker_grid_run; cbv zeta.
  rewrite (search_marker_none _ Hnone 0).
  rewrite search_fallback_short by lia.
  reflexivity.
Qed.

Lemma fix_tracker_grid_short_file_is_left_alone_witness :
  run FixTrackerGrid.main
    (text ["a"; "{weeklyHabits.length > 0 && ("; "b"]%string) =
  (Exited 1,
   World (text ["a"; "{weeklyHabits.length > 0 && ("; "b"]%string) []
     [lit "Could not find cutoff point";
      lit "Really could not find cutoff"]).
Proof.
  apply fix_tracker_grid_short_file_is_left_alone.
  - vm_compute; discriminate.
  - repeat constructor.
Defined.

(** The run of [fix_tracker_grid.py] through its fallback. *)
Lemma fix_tracker_grid_fallback_run :
  forall (original : str) (top : list str) (line : str) (rest : list str),
    Py.readlines original = top ++ line :: rest ->
    Forall (fun l => has_marker l = false) (Py.readlines original) ->
    1200 < len top ->
    Py.isin FixTrackerGrid.fallback_text line = true ->
    (forall (k : nat) (l : str),
       nth_error top k = Some l -> 1200 < Z.of_nat k ->
       Py.isin FixTrackerGrid.fallback_text l = false) ->
    original = concat top ++ line ++ concat rest /\
    fst (run FixTrackerGrid.main original) = Ret tt /\
    file (snd (run FixTrackerGrid.main original))
      = concat top ++ FixTrackerGrid.new_bottom /\
    writes (snd (run FixTrackerGrid.main original))
      = [concat top ++ FixTrackerGrid.new_bottom] /\
    hd_error (stdout (snd (run FixTrackerGrid.main original)))
      = Some (lit "Could not find cutoff point").
Proof.
  intros original top line rest Hlines Hnone Htop Hline Hskip.
  assert (Hfb : FixTrackerGrid.search_fallback (Py.readlines original) 0
                = len top - 1).
  { rewrite Hlines, search_fallback_found; try assumption; lia. }
  assert (Hkeep : Py.join (Py.slice_to (Py.readlines original)
                             (len top - 1 + 1)) = concat top).
  { rewrite Hlines, slice_to_nat by lia.
    replace (Z.to_nat (len top - 1 + 1)) with (length top)
      by (unfold len; lia).
    rewrite firstn_app, Nat.sub_diag, firstn_all; simpl.
    rewrite app_nil_r; reflexivity. }
  split.
  { rewrite <- (concat_readlines original), Hlines, concat_app.
    reflexivity. }
  rewrite fix_tracker_grid_run; cbv zeta.
  rewrite (search_marker_none _ Hnone 0), Hfb.
  change (-1 =? -1) with true; cbv iota.
  destruct (Z.eqb_spec (len top - 1) (-1)); [lia|].
  simpl; rewrite Hkeep; auto.
Qed.


(** X2: when no line holds the marker, and [line] is the first line with
    an index above 1200 that holds ["weeklyHabits.length > 0"],
    [fix_tracker_grid.py] keeps the lines strictly above [line] and puts
    [new_bottom] in the place of [line] and of all that follows: unlike a
    marker line, the matched line itself is dropped. *)
Theorem fix_tracker_grid_fallback_drops_matched_line :
  forall (original : str) (top : list str) (line : str) (rest : list str),
    Py.readlines original = top ++ line :: rest ->
    Forall (fun l => has_marker l = false) (Py.readlines original) ->
    1200 < len top ->
    Py.isin FixTrackerGrid.fallback_text line = true ->
    (forall (k : nat) (l : str),
       nth_error top k = Some l -> 1200 < Z.of_nat k ->
       Py.isin FixTrackerGrid.fallback_text l = false) ->
    original = concat top ++ line ++ concat rest /\
    fst (run FixTrackerGrid.main original) = Ret tt /\
    file (snd (run FixTrackerGrid.main original))
      = concat top ++ FixTrackerGrid.new_bottom /\
    writes (snd (run FixTrackerGrid.main original))
      = [concat top ++ FixTrackerGrid.new_bottom] /\
    hd_error (stdout (snd (run FixTrackerGrid.main original)))
      = Some (lit "Could not find cutoff point").
Proof.
  intros original top line rest; apply fix_tracker_grid_fallback_run.
Qed.

Lemma fix_tracker_grid_fallback_drops_matched_line_witness :
  file (snd (run FixTrackerGrid.main MoreSamples.long_file))
  = concat MoreSamples.filler ++ FixTrackerGrid.new_bottom.
Proof.
  refine (proj1 (proj2 (proj2
    (fix_tracker_grid_fallback_drops_matched_line
       MoreSamples.long_file MoreSamples.filler
       (lit "  {weeklyHabits.length > 0 && (" ++ [nl])
       [lit "old" ++ [nl]] _ _ _ _ _)))).
  - vm_compute; reflexivity.
  - apply Forall_forall; intros l Hl.
    apply negb_true_iff.
    revert l Hl; apply forallb_forall.
    vm_compute; reflexivity.
  - vm_compute; reflexivity.
  - vm_compute; reflexivity.
  - intros k l Hk _.
    apply nth_error_In, repeat_spec in Hk; subst l.
    vm_compute; reflexivity.
Defined.

(** X3: when the first line that holds the marker is the last line of the
    file, [fix_tracker_grid.py] removes nothing: the file it writes is the
    original followed by [new_bottom]. *)
Theorem fix_tracker_grid_marker_in_last_line_appends :
  forall (original : str) (top : list str) (line : str),
    Py.readlines original = top ++ [line] ->
    Forall (fun l => has_marker l = false) top ->
    has_marker line = true ->
    fst (run FixTrackerGrid.main original) = Ret tt /\
    file (snd (run FixTrackerGrid.main original))
      = original ++ FixTrackerGrid.new_bottom.
Proof.
  intros original top line Hlines Htop Hline.
  rewrite fix_tracker_grid_run; cbv zeta.
  rewrite Hlines, search_marker_found by assumption.
  destruct (Z.eqb_spec (0 + len top) (-1)); [unfold len in *; lia|].
  split; [reflexivity|]; simpl file.
  replace (0 + len top + 1) with (len top + 1) by lia.
  rewrite slice_to_app_exact.
  rewrite <- (concat_readlines original), Hlines.
  reflexivity.
Qed.

Lemma fix_tracker_grid_marker_in_last_line_appends_witness :
  file (snd (run FixTrackerGrid.main
               (text ["a"; "{/* Weekly Habits Section - Redesigned as Cards */}"]%string)))
  = text ["a"; "{/* Weekly Habits Section - Redesigned as Cards */}"]%string
    ++ FixTrackerGrid.new_bottom.
Proof.
  refine (proj2 (fix_tracker_grid_marker_in_last_line_appends
            (text ["a"; "{/* Weekly Habits Section - Redesigned as Cards */}"]%string)
            [lit "a" ++ [nl]]
            (lit "{/* Weekly Habits Section - Redesigned as Cards */}" ++ [nl])
            eq_refl _ eq_refl)).
  repeat constructor.
Defined.

(** ** The line scan of [clean_tracker_grid.py], on whole blocks *)

Section ScanBlocks.
Import CleanTrackerGrid ScanPredicates.

Lemma line_scan_of_table (lines out : list str) :
  table_run loop_table Copying lines = (out, Copying) ->
  line_scan lines = (out, false).
Proof.
  intros H; rewrite line_scan_table in H.
  destruct (line_scan lines) as [new_lines skip]; simpl in H.
  injection H as <- Hs.
  destruct skip; [discriminate | reflexivity].
Qed.

Lemma not_start_not_opens (line : str) :
  startPredicate line = false -> opens line = false.
Proof.
  unfold startPredicate, opens; intros H.
  apply orb_false_iff in H as [-> ->]; reflexivity.
Qed.

Lemma close_then_copy (close : str) (post : list str) :
  is_close close = true ->
  Forall (fun l => opens l = false) post ->
  table_run loop_table Skipping (close :: post) = (post, Copying).
Proof.
  intros Hclose Hpost; cbn [table_run]; unfold loop_table at 1.
  destruct (close_has_no_marker close Hclose) as (_ & -> & ->).
  rewrite Hclose, (copy_run post Hpost); reflexivity.
Qed.

Lemma comment_then_copy (comment : str) (post : list str) :
  has_end comment = true -> has_log comment = false ->
  Forall (fun l => opens l = false) post ->
  table_run loop_table Skipping (comment :: post) = (comment :: post, Copying).
Proof.
  intros Hend Hlog Hpost; cbn [table_run]; unfold loop_table at 1.
  rewrite Hlog, Hend, (copy_run post Hpost); reflexivity.
Qed.

(** A skip that meets a lone closing brace. *)
Lemma closed_block_run (line : str) (mid : list str) (close : str)
    (post : list str) :
  opens line = true ->
  Forall (fun l => endPredicate l = false) mid ->
  is_close close = true ->
  Forall (fun l => opens l = false) post ->
  table_run loop_table Copying (line :: mid ++ close :: post)
  = (post, Copying).
Proof.
  intros Hopen Hmid Hclose Hpost.
  cbn [table_run]; unfold loop_table at 1; rewrite Hopen.
  rewrite table_run_app, (skip_run mid Hmid); cbn [fst snd].
  rewrite (close_then_copy close post Hclose Hpost); reflexivity.
Qed.

(** A skip that meets the end comment. *)
Lemma commented_block_run (line : str) (mid : list str) (comment : str)
    (post : list str) :
  opens line = true ->
  Forall (fun l => endPredicate l = false) mid ->
  has_end comment = true -> has_log comment = false ->
  Forall (fun l => opens l = false) post ->
  table_run loop_table Copying (line :: mid ++ comment :: post)
  = (comment :: post, Copying).
Proof.
  intros Hopen Hmid Hend Hlog Hpost.
  cbn [table_run]; unfold loop_table at 1; rewrite Hopen.
  rewrite table_run_app, (skip_run mid Hmid); cbn [fst snd].
  rewrite (comment_then_copy comment post Hend Hlog Hpost); reflexivity.
Qed.

Lemma table_run_subseq (table : scan_state -> str -> bool * scan_state)
    (lines : list str) :
  forall st, subseq (fst (table_run table st lines)) lines.
Proof.
  induction lines as [|l lines IH]; intros st; simpl; [constructor|].
  destruct (table st l) as [copy st'].
  specialize (IH st').
  destruct (table_run table st' lines) as [out final]; simpl in *.
  destruct copy; now constructor.
Qed.

End ScanBlocks.

(** X4: the scan takes out a whole block.  If nothing before [line] opens
    a skip, [line] opens one, no line of [mid] ends it, [close] is a lone
    closing brace and nothing after it opens a skip again, then
    [new_lines] is the input without [line], [mid] and [close], and the
    loop ends with [skip] false. *)
Theorem line_scan_removes_block_up_to_closing_brace :
  forall (pre : list str) (line : str) (mid : list str) (close : str)
         (post : list str),
    Forall (fun l => ScanPredicates.opens l = false) pre ->
    ScanPredicates.opens line = true ->
    Forall (fun l => ScanPredicates.endPredicate l = false) mid ->
    ScanPredicates.is_close close = true ->
    Forall (fun l => ScanPredicates.opens l = false) post ->
    CleanTrackerGrid.line_scan (pre ++ line :: mid ++ close :: post)
    = (pre ++ post, false).
Proof.
  intros pre line mid close post Hpre Hopen Hmid Hclose Hpost.
  apply line_scan_of_table.
  rewrite table_run_app, (copy_run pre Hpre); cbn [fst snd].
  rewrite (closed_block_run line mid close post) by assumption.
  reflexivity.
Qed.

Lemma line_scan_removes_block_up_to_closing_brace_witness :
  CleanTrackerGrid.line_scan
    (map lit ["a"; "    const handleOpenChoiceLog = (h) => {"; "      f(h);";
              "    };"; "b"]%string)
  = (map lit ["a"; "b"]%string, false).
Proof.
  apply (line_scan_removes_block_up_to_closing_brace
           [lit "a"] (lit "    const handleOpenChoiceLog = (h) => {")
           [lit "      f(h);"] (lit "    };") [lit "b"]).
  - repeat constructor.
  - reflexivity.
  - repeat constructor.
  - reflexivity.
  - repeat constructor.
Defined.

(** X5: a skip that meets the end comment takes out the lines above the
    comment only.  If nothing before [line] opens a skip, [line] opens
    one, no line of [mid] ends it, [comment] holds the end comment (and
    not the second start text) and nothing after it opens a skip, then
    [new_lines] is the input without [line] and [mid]: the comment line
    stays. *)
Theorem line_scan_removes_block_up_to_end_comment :
  forall (pre : list str) (line : str) (mid : list str) (comment : str)
         (post : list str),
    Forall (fun l => ScanPredicates.opens l = false) pre ->
    ScanPredicates.opens line = true ->
    Forall (fun l => ScanPredicates.endPredicate l = false) mid ->
    ScanPredicates.has_end comment = true ->
    ScanPredicates.has_log comment = false ->
    Forall (fun l => ScanPredicates.opens l = false) post ->
    CleanTrackerGrid.line_scan (pre ++ line :: mid ++ comment :: post)
    = (pre ++ comment :: post, false).
Proof.
  intros pre line mid comment post Hpre Hopen Hmid Hend Hlog Hpost.
  apply line_scan_of_table.
  rewrite table_run_app, (copy_run pre Hpre); cbn [fst snd].
  rewrite (commented_block_run line mid comment post) by assumption.
  reflexivity.
Qed.

Lemma line_scan_removes_block_up_to_end_comment_witness :
  CleanTrackerGrid.line_scan
    (map lit ["a"; "const WeeklyHabitRowContent = ({ h }) => {"; "  x";
              "// SortableWeeklyHabitRow removed/commented out"; "b"]%string)
  = (map lit ["a"; "// SortableWeeklyHabitRow removed/commented out";
              "b"]%string, false).
Proof.
  apply (line_scan_removes_block_up_to_end_comment
           [lit "a"] (lit "const WeeklyHabitRowContent = ({ h }) => {")
           [lit "  x"]
           (lit "// SortableWeeklyHabitRow removed/commented out")
           [lit "b"]).
  - repeat constructor.
  - reflexivity.
  - repeat constructor.
  - reflexivity.
  - reflexivity.
  - repeat constructor.
Defined.

(** X6: when no line holds either start text, the scan copies every line
    and ends with [skip] false, whatever closing braces or end comments
    the lines hold. *)
Theorem line_scan_without_start_copies_all :
  forall lines : list str,
    Forall (fun l => ScanPredicates.startPredicate l = false) lines ->
    CleanTrackerGrid.line_scan lines = (lines, false).
Proof.
  intros lines Hnone.
  apply line_scan_of_table, copy_run.
  eapply Forall_impl; [|exact Hnone].
  intros l; apply not_start_not_opens.
Qed.

Lemma line_scan_without_start_copies_all_witness :
  CleanTrackerGrid.line_scan
    (map lit ["a"; "};"; "// SortableWeeklyHabitRow removed/commented out"]%string)
  = (map lit ["a"; "};";
              "// SortableWeeklyHabitRow removed/commented out"]%string, false).
Proof.
  apply line_scan_without_start_copies_all.
  repeat constructor.
Defined.

(** X7: the scan only leaves lines out: for every input, [new_lines] is
    the input with some lines dropped, none added, changed or moved. *)
Theorem line_scan_only_drops_lines :
  forall lines : list str,
    subseq (fst (CleanTrackerGrid.line_scan lines)) lines.
Proof.
  intros lines.
  pose proof (table_run_subseq ScanPredicates.loop_table lines Copying) as H.
  rewrite line_scan_table in H; exact H.
Qed.

(** ** The blank-line pass of [clean_habit_modal.py], on any buffer *)

Section BlankPass.
Import CleanHabitModal.

Lemma split_at_nl (s : str) :
  Forall (fun c => c <> nl) s \/
  exists a r, s = a ++ nl :: r /\ Forall (fun c => c <> nl) a.
Proof.
  induction s as [|c s IH]; [left; constructor|].
  destruct (ascii_dec c nl) as [-> | Hc].
  - right; exists [], s; split; [reflexivity | constructor].
  - destruct IH as [H | (a & r & -> & Ha)].
    + left; now constructor.
    + right; exists (c :: a), r; split; [reflexivity | now constructor].
Qed.

Lemma split_ws (r : str) :
  exists w b, r = w ++ b /\
    Forall (fun c => Py.isspace c = true) w /\ text_start b.
Proof.
  induction r as [|c r (w & b & -> & Hw & Hb)].
  - exists [], []; repeat split; constructor.
  - destruct (Py.isspace c) eqn:E.
    + exists (c :: w), b; repeat split; [now constructor | exact Hb].
    + exists [], (c :: w ++ b); repeat split; [constructor | exact E].
Qed.

(** Every buffer is a line without newline, or such a line, a newline, a
    run of white space and a shorter buffer that starts with text. *)
Lemma blank_induction (P : str -> Prop) :
  (forall a, Forall (fun c => c <> nl) a -> P a) ->
  (forall a w b,
     Forall (fun c => c <> nl) a ->
     Forall (fun c => Py.isspace c = true) w ->
     text_start b -> P b -> P (a ++ nl :: w ++ b)) ->
  forall s, P s.
Proof.
  intros Hline Hstep s.
  remember (length s) as n eqn:En.
  revert s En; induction n as [n IH] using lt_wf_ind; intros s En.
  destruct (split_at_nl s) as [H | (a & r & -> & Ha)]; [now apply Hline|].
  destruct (split_ws r) as (w & b & -> & Hw & Hb).
  apply Hstep; try assumption.
  apply (IH (length b)); [|reflexivity].
  subst n; rewrite length_app; simpl; rewrite length_app; lia.
Qed.

Lemma newlines_app (u v : str) :
  newlines (u ++ v) = (newlines u + newlines v)%nat.
Proof. unfold newlines; apply count_occ_app. Qed.

Lemma after_last_nl_spec (w : str) :
  (2 <= newlines w)%nat ->
  exists n, upto_last_nl w = Some n /\ after_last_nl w = skipn n w /\
    (2 <= n <= length w)%nat /\ newlines (skipn n w) = O.
Proof.
  intros H2.
  destruct (upto_last_nl w) as [n|] eqn:E;
    [|apply upto_last_nl_none in E; lia].
  destruct (upto_last_nl_some w n E) as [Hn H0].
  exists n; repeat split; try assumption.
  - unfold after_last_nl; now rewrite E.
  - rewrite <- (firstn_skipn n w), newlines_app, H0 in H2.
    assert (newlines (firstn n w) <= length (firstn n w))%nat
      by apply count_occ_bound.
    rewrite length_firstn in H; lia.
Qed.

Lemma kept_run_space (w : str) :
  Forall (fun c => Py.isspace c = true) w ->
  Forall (fun c => Py.isspace c = true) (kept_run w).
Proof.
  intros Hw; unfold kept_run.
  destruct (Nat.leb_spec 2 (newlines w)) as [H2 | _]; [|exact Hw].
  destruct (after_last_nl_spec w H2) as (n & _ & -> & _).
  constructor; [reflexivity | now apply Forall_skipn].
Qed.

Lemma kept_run_short (w : str) : (newlines (kept_run w) < 2)%nat.
Proof.
  unfold kept_run.
  destruct (Nat.leb_spec 2 (newlines w)) as [H2 | H2]; [|exact H2].
  destruct (after_last_nl_spec w H2) as (n & _ & -> & _ & H0).
  rewrite newlines_cons, H0, Ascii.eqb_refl; lia.
Qed.

Lemma kept_run_length (w : str) : (length (kept_run w) <= length w)%nat.
Proof.
  unfold kept_run.
  destruct (Nat.leb_spec 2 (newlines w)) as [H2 | _]; [|lia].
  destruct (after_last_nl_spec w H2) as (n & _ & -> & Hn & _).
  simpl; rewrite length_skipn; lia.
Qed.

(** The pass, one step of the decomposition at a time. *)
Lemma cleanup_step (a w b : str) :
  Forall (fun c => c <> nl) a ->
  Forall (fun c => Py.isspace c = true) w ->
  text_start b ->
  cleanup_blank_lines (a ++ nl :: w ++ b)
  = a ++ nl :: kept_run w ++ cleanup_blank_lines b.
Proof.
  intros Ha Hw Hb.
  rewrite (cleanup_copies_line a _ Ha), (cleanup_run w b Hw Hb).
  unfold kept_run; destruct (2 <=? newlines w)%nat; reflexivity.
Qed.

Lemma cleanup_line (a : str) :
  Forall (fun c => c <> nl) a -> cleanup_blank_lines a = a.
Proof.
  intros Ha; rewrite <- (app_nil_r a) at 1.
  rewrite (cleanup_copies_line a [] Ha); apply app_nil_r.
Qed.

Lemma text_start_cleanup (b : str) :
  text_start b -> text_start (cleanup_blank_lines b).
Proof.
  destruct b as [|c b]; [intros _; exact I|]; intros Hc.
  unfold cleanup_blank_lines, Re.sub.
  rewrite scan_replace_no_match; [exact Hc|].
  apply blank_lines_no_match; intros ->.
  unfold text_start in Hc; rewrite isspace_nl in Hc; discriminate.
Qed.

(** [blank_free], piece by piece. *)
Lemma blank_free_nil : blank_free [].
Proof. intros [|j]; reflexivity. Qed.

Lemma blank_free_cons (c : ascii) (s : str) :
  Re.match_here pat_blank_lines (c :: s) = None ->
  blank_free s -> blank_free (c :: s).
Proof. intros Hc Hs [|j]; [exact Hc | apply Hs]. Qed.

Lemma blank_free_line (a t : str) :
  Forall (fun c => c <> nl) a -> blank_free t -> blank_free (a ++ t).
Proof.
  intros Ha Ht; induction Ha as [|c a Hc _ IH]; [exact Ht|].
  apply blank_free_cons; [now apply blank_lines_no_match | exact IH].
Qed.

Lemma blank_free_run (w t : str) :
  Forall (fun c => Py.isspace c = true) w -> text_start t ->
  (newlines w < 2)%nat -> blank_free t -> blank_free (w ++ t).
Proof.
  intros Hw Ht Hn Hfree; induction Hw as [|c w Hc Hw IH]; [exact Hfree|].
  rewrite newlines_cons in Hn.
  apply blank_free_cons; [|apply IH; lia].
  destruct (Ascii.eqb_spec nl c) as [<- | Hne].
  - rewrite blank_lines_match by assumption.
    destruct (Nat.leb_spec 2 (newlines w)); [lia | reflexivity].
  - apply blank_lines_no_match; congruence.
Qed.

Lemma cleanup_blank_free (s : str) : blank_free (cleanup_blank_lines s).
Proof.
  induction s as [a Ha | a w b Ha Hw Hb IH] using blank_induction.
  - rewrite (cleanup_line a Ha), <- (app_nil_r a).
    apply blank_free_line; [exact Ha | apply blank_free_nil].
  - rewrite (cleanup_step a w b Ha Hw Hb).
    apply blank_free_line; [exact Ha|].
    pose proof (kept_run_short w) as Hshort.
    pose proof (kept_run_space w Hw) as Hspace.
    pose proof (text_start_cleanup b Hb) as Hstart.
    apply blank_free_cons.
    + rewrite blank_lines_match by assumption.
      destruct (Nat.leb_spec 2 (newlines (kept_run w))); [lia | reflexivity].
    + now apply blank_free_run.
Qed.

Lemma blank_free_fixed (s : str) :
  blank_free s -> cleanup_blank_lines s = s.
Proof.
  intros Hfree; unfold cleanup_blank_lines, Re.sub.
  rewrite <- (app_nil_r s) at 1.
  rewrite scan_replace_copy; [apply app_nil_r|].
  intros j _; rewrite app_nil_r; apply Hfree.
Qed.

(** A run of white space behind a newline, in a text without a match. *)
Lemma blank_free_short_runs (s p w t : str) :
  blank_free s -> s = p ++ nl :: w ++ t ->
  Forall (fun c => Py.isspace c = true) w ->
  (newlines w < 2)%nat.
Proof.
  intros Hfree -> Hw.
  destruct (split_ws t) as (w2 & b & -> & Hw2 & Hb).
  specialize (Hfree (length p)).
  rewrite skipn_app, skipn_all, Nat.sub_diag in Hfree.
  cbn [skipn app] in Hfree.
  rewrite app_assoc in Hfree.
  rewrite blank_lines_match in Hfree
    by (try apply Forall_app; auto).
  rewrite newlines_app in Hfree.
  destruct (Nat.leb_spec 2 (newlines w + newlines w2)) as [H2 | H2]; [|lia].
  destruct (upto_last_nl (w ++ w2)) as [n|] eqn:E; [discriminate|].
  apply upto_last_nl_none in E; rewrite newlines_app in E; lia.
Qed.

Lemma ink_space (w : str) :
  Forall (fun c => Py.isspace c = true) w -> ink w = [].
Proof.
  induction 1 as [|c w Hc _ IH]; [reflexivity|].
  unfold ink in *; simpl; rewrite Hc; exact IH.
Qed.

Lemma ink_app (u v : str) : ink (u ++ v) = ink u ++ ink v.
Proof. apply filter_app. Qed.

Lemma cleanup_ink_length (s : str) :
  ink (cleanup_blank_lines s) = ink s /\
  (length (cleanup_blank_lines s) <= length s)%nat.
Proof.
  induction s as [a Ha | a w b Ha Hw Hb [IHink IHlen]] using blank_induction.
  - rewrite (cleanup_line a Ha); split; [reflexivity | lia].
  - rewrite (cleanup_step a w b Ha Hw Hb); split.
    + change (nl :: kept_run w ++ cleanup_blank_lines b)
        with ((nl :: kept_run w) ++ cleanup_blank_lines b).
      change (nl :: w ++ b) with ((nl :: w) ++ b).
      rewrite !ink_app, IHink.
      rewrite (ink_space (nl :: kept_run w))
        by (constructor; [reflexivity | apply kept_run_space, Hw]).
      rewrite (ink_space (nl :: w)) by (constructor; [reflexivity | exact Hw]).
      reflexivity.
    + pose proof (kept_run_length w).
      rewrite !length_app; simpl; rewrite !length_app; lia.
Qed.

End BlankPass.

(** X8: what the blank-line pass returns never holds two blank lines in a
    row: wherever a newline of the result is followed by a run [w] of
    white space, [w] holds at most one more newline.  The same is true of
    every file [clean_habit_modal.py] writes. *)
Theorem cleanup_leaves_at_most_one_blank_line :
  forall (s p w t : str),
    Forall (fun c => Py.isspace c = true) w ->
    (CleanHabitModal.cleanup_blank_lines s = p ++ nl :: w ++ t ->
     (newlines w < 2)%nat) /\
    (file (snd (run CleanHabitModal.main s)) = p ++ nl :: w ++ t ->
     (newlines w < 2)%nat).
Proof.
  intros s p w t Hw; split; intros E.
  - exact (blank_free_short_runs _ p w t (cleanup_blank_free s) E Hw).
  - rewrite clean_habit_modal_run in E; cbv zeta in E.
    destruct (marker_cut _ _ _) as [cut|]; simpl in E;
      exact (blank_free_short_runs _ p w t (cleanup_blank_free _) E Hw).
Qed.

Lemma cleanup_leaves_at_most_one_blank_line_witness :
  CleanHabitModal.cleanup_blank_lines Samples.example3
  = lit "a" ++ nl :: [nl] ++ (lit "b" ++ [nl]) /\
  (newlines [nl] < 2)%nat.
Proof.
  assert (E : CleanHabitModal.cleanup_blank_lines Samples.example3
              = lit "a" ++ nl :: [nl] ++ (lit "b" ++ [nl]))
    by (vm_compute; reflexivity).
  split; [exact E|].
  refine (proj1 (cleanup_leaves_at_most_one_blank_line
                   Samples.example3 (lit "a") [nl] (lit "b" ++ [nl]) _) E).
  repeat constructor.
Defined.

(** X9: the blank-line pass is idempotent: applied to its own result it
    changes nothing. *)
Theorem cleanup_is_idempotent :
  forall s : str,
    CleanHabitModal.cleanup_blank_lines
      (CleanHabitModal.cleanup_blank_lines s)
    = CleanHabitModal.cleanup_blank_lines s.
Proof.
  intros s; apply blank_free_fixed, cleanup_blank_free.
Qed.

(** X10: the blank-line pass touches white space only: the characters
    other than white space are the same, in the same order, before and
    after it, and the result is never longer than the input. *)
Theorem cleanup_changes_white_space_only :
  forall s : str,
    ink (CleanHabitModal.cleanup_blank_lines s) = ink s /\
    len (CleanHabitModal.cleanup_blank_lines s) <= len s.
Proof.
  intros s; destruct (cleanup_ink_length s) as [Hink Hlen].
  split; [exact Hink | unfold len; lia].
Qed.

(** ** The block patterns of the two clean-up scripts *)

Section BlockPatterns.
Local Arguments Ascii.eqb : simpl never.

Lemma option_map_add0 (x : option nat) : option_map (Nat.add 0) x = x.
Proof. destruct x; reflexivity. Qed.

(** A literal head of a pattern matches the same text and nothing else. *)
Lemma match_lits (p : str) (r : Re.regex) :
  forall s,
    Re.match_here (lits p ++ r) s =
    if Py.startswith p s
    then option_map (Nat.add (length p)) (Re.match_here r (skipn (length p) s))
    else None.
Proof.
  induction p as [|a p IH]; intros s.
  - simpl; now rewrite option_map_add0.
  - destruct s as [|b s]; [reflexivity|].
    cbn [lits map app Re.match_here Re.one Re.accepts Py.startswith
         length skipn].
    fold (lits p).
    destruct (Ascii.eqb a b); [|reflexivity].
    rewrite IH; cbn [andb].
    destruct (Py.startswith p s); [|reflexivity].
    destruct (Re.match_here r (skipn (length p) s)); reflexivity.
Qed.

Lemma match_lits_only (p : str) (s : str) :
  Re.match_here (lits p) s =
  if Py.startswith p s then Some (length p) else None.
Proof.
  rewrite <- (app_nil_r (lits p)), match_lits.
  destruct (Py.startswith p s); [|reflexivity].
  simpl; f_equal; lia.
Qed.

(** A greedy run in front of a text at which it must stop. *)
Lemma star_run (a : Re.atom) (k : str -> option nat) (body t : str) :
  Forall (fun c => Re.accepts a c = true) body ->
  (forall c t', t = c :: t' -> Re.accepts a c = false) ->
  (forall j, (j < length body)%nat -> k (skipn j (body ++ t)) = None) ->
  Re.star a k (body ++ t) = option_map (Nat.add (length body)) (k t).
Proof.
  intros Hbody Hstop; induction Hbody as [|x body Hx _ IH]; intros Hinner.
  - rewrite option_map_add0; simpl app.
    destruct t as [|c t']; [reflexivity|].
    simpl; now rewrite (Hstop c t' eq_refl).
  - simpl app; simpl Re.star; rewrite Hx, IH.
    + destruct (k t); [reflexivity|].
      apply (Hinner O); simpl; lia.
    + intros j Hj; apply (Hinner (S j)); simpl; lia.
Qed.

Lemma plus_lazy_cons (a : Re.atom) (k : str -> option nat)
    (c : ascii) (s : str) :
  Re.plus_lazy a k (c :: s) =
  if Re.accepts a c then
    match k s with
    | Some n => Some (S n)
    | None => option_map S (Re.plus_lazy a k s)
    end
  else None.
Proof. reflexivity. Qed.

(** A lazy run that finds its continuation nowhere. *)
Lemma lazy_run_none (a : Re.atom) (k : str -> option nat) (body t : str) :
  Forall (fun c => Re.accepts a c = true) body ->
  (forall c t', t = c :: t' -> Re.accepts a c = false) ->
  (forall j, (1 <= j <= length body)%nat ->
     k (skipn j (body ++ t)) = None) ->
  Re.plus_lazy a k (body ++ t) = None.
Proof.
  intros Hbody Hstop; induction Hbody as [|x body Hx _ IH]; intros Hinner.
  - simpl app; destruct t as [|c t']; [reflexivity|].
    simpl; now rewrite (Hstop c t' eq_refl).
  - simpl app; simpl Re.plus_lazy; rewrite Hx.
    pose proof (Hinner 1%nat ltac:(simpl; lia)) as H1.
    cbn [skipn app] in H1; rewrite H1.
    rewrite IH; [reflexivity|].
    intros j Hj; apply (Hinner (S j)); simpl; lia.
Qed.

(** A lazy run that finds its continuation first at its end. *)
Lemma lazy_run_some (a : Re.atom) (k : str -> option nat) (t : str)
    (n : nat) :
  k t = Some n ->
  forall (x : ascii) (body : str),
    Forall (fun c => Re.accepts a c = true) (x :: body) ->
    (forall j, (1 <= j < length (x :: body))%nat ->
       k (skipn j ((x :: body) ++ t)) = None) ->
    Re.plus_lazy a k ((x :: body) ++ t) = Some (length (x :: body) + n)%nat.
Proof.
  intros Hk x body; revert x.
  induction body as [|y body IH]; intros x Hacc Hinner;
    inversion Hacc as [|? ? Hx Hrest]; subst;
    change ((x :: ?l) ++ t) with (x :: (l ++ t));
    rewrite plus_lazy_cons, Hx.
  - simpl app; rewrite Hk; reflexivity.
  - pose proof (Hinner 1%nat ltac:(simpl; lia)) as H1.
    cbn [skipn] in H1.
    change ((x :: y :: body) ++ t) with (x :: ((y :: body) ++ t)) in H1.
    cbn [skipn] in H1; rewrite H1.
    rewrite (IH y Hrest).
    + simpl; reflexivity.
    + intros j Hj; apply (Hinner (S j)); simpl in *; lia.
Qed.

Lemma accepts_not (c : ascii) (body : str) :
  ~ In c body -> Forall (fun x => Re.accepts (Re.NotChr c) x = true) body.
Proof.
  intros Hno; apply Forall_forall; intros x Hx; simpl.
  destruct (Ascii.eqb_spec c x) as [-> | _]; [contradiction | reflexivity].
Qed.

Lemma not_accepts_self (c : ascii) : Re.accepts (Re.NotChr c) c = false.
Proof. simpl; now rewrite Ascii.eqb_refl. Qed.

(** [open [^c]+ c tail]: the run ends at the first [c] behind the opening
    text, and the pattern matches there or not at all. *)
Lemma greedy_block_match (open : str) (c : ascii) (tail body rest : str) :
  ~ In c body ->
  Re.match_here
    (lits open ++ (Re.NotChr c, Re.Plus) :: lits (c :: tail))
    (open ++ body ++ c :: rest)
  = match body with
    | [] => None
    | _ :: _ =>
        if Py.startswith tail rest
        then Some (length open + length body + 1 + length tail)%nat
        else None
    end.
Proof.
  intros Hno.
  rewrite match_lits, startswith_refl_app.
  rewrite skipn_app, skipn_all, Nat.sub_diag; cbn [skipn app].
  cbn [Re.match_here].
  destruct body as [|x body].
  - cbn [app Re.one]; rewrite not_accepts_self; reflexivity.
  - pose proof (accepts_not c (x :: body) Hno) as Hacc.
    inversion Hacc as [|? ? Hx Hbody]; subst.
    cbn [app Re.one]; rewrite Hx.
    rewrite (star_run (Re.NotChr c) (Re.match_here (lits (c :: tail)))
               body (c :: rest) Hbody).
    + rewrite match_lits_only.
      cbn [Py.startswith]; rewrite Ascii.eqb_refl; cbn [andb].
      destruct (Py.startswith tail rest); [|reflexivity].
      simpl; f_equal; lia.
    + intros c' t' E; injection E as <- _; apply not_accepts_self.
    + intros j Hj.
      rewrite match_lits_only, skipn_app.
      replace (j - length body)%nat with O by lia; cbn [skipn].
      destruct (skipn j body) as [|y ys] eqn:E.
      { apply (f_equal (@length ascii)) in E.
        rewrite length_skipn in E; simpl in E; lia. }
      assert (Hy : In y body).
      { rewrite <- (firstn_skipn j body), E.
        apply in_or_app; right; now left. }
      cbn [app Py.startswith].
      destruct (Ascii.eqb_spec c y) as [-> | _]; [|reflexivity].
      exfalso; apply Hno; now right.
Qed.

(** [re.sub] with such a pattern, at the first occurrence of the opening
    text. *)
Lemma greedy_block_removed (open : str) (c : ascii)
    (tail pre body post : str) (x : ascii) :
  let pattern := lits open ++ (Re.NotChr c, Re.Plus) :: lits (c :: tail) in
  let content := pre ++ open ++ (x :: body) ++ c :: tail ++ post in
  Py.find content open = len pre ->
  ~ In c (x :: body) ->
  Re.sub pattern [] content = pre ++ Re.sub pattern [] post.
Proof.
  intros pattern content Hfirst Hno.
  assert (Hne : Py.find content open <> -1)
    by (rewrite Hfirst; unfold len; lia).
  destruct (find_first content open Hne) as [k [Ek [_ [_ Hmin]]]].
  assert (k = length pre) by (unfold len in *; lia); subst k.
  assert (Hm : Re.match_here pattern
                 (open ++ (x :: body) ++ c :: tail ++ post)
               = Some (S (length open + length body + 1 + length tail))).
  { unfold pattern; rewrite greedy_block_match by exact Hno.
    rewrite startswith_refl_app; simpl length.
    f_equal; lia. }
  assert (Hbefore : forall j, (j < length pre)%nat ->
            Re.match_here pattern (skipn j content) = None).
  { intros j Hj; unfold pattern; rewrite match_lits.
    rewrite (Hmin j Hj); reflexivity. }
  unfold content in *.
  rewrite (sub_first_match pattern [] pre _ _ Hbefore Hm).
  cbn [app]; f_equal; f_equal.
  replace (S (length open + length body + 1 + length tail))
    with (length (open ++ (x :: body) ++ c :: tail))
    by (rewrite ?length_app; simpl; rewrite ?length_app; simpl; lia).
  assert (E : open ++ x :: body ++ c :: tail ++ post
              = (open ++ (x :: body) ++ c :: tail) ++ post)
    by (rewrite <- ?app_assoc; simpl; rewrite <- ?app_assoc; reflexivity).
  rewrite E, skipn_app, skipn_all, Nat.sub_diag; reflexivity.
Qed.

End BlockPatterns.

(** X11: the pattern of line 12 of [clean_habit_modal.py] stops its body
    at the first closing brace.  At an occurrence of the opening text
    followed by [body] without a closing brace and then a closing brace,
    it matches exactly when [body] is not empty and a semicolon follows
    that brace; the match then ends behind the semicolon.  A body with a
    nested block, whose first closing brace has no semicolon behind it, is
    not matched. *)
Theorem toggle_pattern_stops_at_first_brace :
  forall (body rest : str),
    ~ In "}"%char body ->
    Re.match_here CleanHabitModal.pat_toggleAssignedDay
      (toggle_open ++ body ++ "}"%char :: rest)
    = match body with
      | [] => None
      | _ :: _ =>
          if Py.startswith (lit ";") rest
          then Some (length toggle_open + length body + 2)%nat
          else None
      end.
Proof.
  intros body rest Hno.
  change CleanHabitModal.pat_toggleAssignedDay
    with (lits toggle_open
          ++ (Re.NotChr "}", Re.Plus) :: lits ("}"%char :: lit ";")).
  rewrite greedy_block_match by exact Hno.
  destruct body; [reflexivity|].
  destruct (Py.startswith (lit ";") rest); [|reflexivity].
  f_equal; simpl; lia.
Qed.

Lemma toggle_pattern_stops_at_first_brace_witness :
  Re.match_here CleanHabitModal.pat_toggleAssignedDay
    MoreSamples.nested_toggle = None.
Proof.
  refine (toggle_pattern_stops_at_first_brace
            (lit " if (x) { f(); ") (lit " };") _).
  vm_compute; intuition discriminate.
Defined.

(** X12: the first pass of [clean_habit_modal.py] removes a flat
    definition.  If the opening text first occurs behind [pre], and is
    followed by a body that is not empty and holds no closing brace and
    then by ["};"], the pass returns [pre] followed by its own result on
    what stands behind the ["};"]. *)
Theorem toggle_pass_removes_flat_definition :
  forall (pre body post : str) (x : ascii),
    let content :=
      pre ++ toggle_open ++ (x :: body) ++ "}"%char :: lit ";" ++ post in
    Py.find content toggle_open = len pre ->
    ~ In "}"%char (x :: body) ->
    Re.sub CleanHabitModal.pat_toggleAssignedDay [] content
    = pre ++ Re.sub CleanHabitModal.pat_toggleAssignedDay [] post.
Proof.
  intros pre body post x content Hfirst Hno.
  change CleanHabitModal.pat_toggleAssignedDay
    with (lits toggle_open
          ++ (Re.NotChr "}", Re.Plus) :: lits ("}"%char :: lit ";")).
  exact (greedy_block_removed toggle_open "}" (lit ";") pre body post x
           Hfirst Hno).
Qed.

Lemma toggle_pass_removes_flat_definition_witness :
  Re.sub CleanHabitModal.pat_toggleAssignedDay [] MoreSamples.flat_toggle
  = lit "a;"
    ++ Re.sub CleanHabitModal.pat_toggleAssignedDay [] (lit "z").
Proof.
  refine (toggle_pass_removes_flat_definition
            (lit "a;") (lit "f(dayIndex); ") (lit "z") " "%char _ _).
  - vm_compute; reflexivity.
  - vm_compute; intuition discriminate.
Defined.

(** X13: the pattern of line 22 of [clean_habit_modal.py] ends at the
    first closing brace behind its opening text, whatever follows.  With
    the opening text first found behind [pre], a body that is not empty
    and holds no closing brace, and a closing brace behind it, the pass
    returns [pre] followed by its own result on what stands behind that
    brace. *)
Theorem branch_pass_removes_up_to_first_brace :
  forall (pre body post : str) (x : ascii),
    let content := pre ++ branch_open ++ (x :: body) ++ "}"%char :: post in
    Py.find content branch_open = len pre ->
    ~ In "}"%char (x :: body) ->
    Re.match_here CleanHabitModal.pat_assignedDays_branch
      (branch_open ++ (x :: body) ++ "}"%char :: post)
    = Some (length branch_open + length (x :: body) + 1)%nat /\
    Re.sub CleanHabitModal.pat_assignedDays_branch [] content
    = pre ++ Re.sub CleanHabitModal.pat_assignedDays_branch [] post.
Proof.
  intros pre body post x content Hfirst Hno.
  change CleanHabitModal.pat_assignedDays_branch
    with (lits branch_open
          ++ (Re.NotChr "}", Re.Plus) :: lits ("}"%char :: [])).
  split.
  - rewrite greedy_block_match by exact Hno.
    simpl Py.startswith; cbv iota; f_equal; simpl; lia.
  - exact (greedy_block_removed branch_open "}" [] pre body post x
             Hfirst Hno).
Qed.

Lemma branch_pass_removes_up_to_first_brace_witness :
  Re.sub CleanHabitModal.pat_assignedDays_branch []
    (lit "if (a) { b " ++ branch_open ++ lit " t = { n: 1 " ++ lit "}"
     ++ lit "; }")
  = lit "if (a) { b "
    ++ Re.sub CleanHabitModal.pat_assignedDays_branch [] (lit "; }").
Proof.
  refine (proj2 (branch_pass_removes_up_to_first_brace
            (lit "if (a) { b ") (lit "t = { n: 1 ") (lit "; }") " "%char _ _)).
  - vm_compute; reflexivity.
  - vm_compute; intuition discriminate.
Defined.

Section LazyPattern.
Local Arguments Ascii.eqb : simpl never.

(** What the tail [\n\};] of the pattern of line 14 needs. *)
Lemma close_tail_shape (s : str) :
  Py.startswith [nl; "}"; ";"]%char s = true ->
  nth_error s 0 = Some nl /\ nth_error s 1 = Some "}"%char /\
  nth_error s 2 = Some ";"%char.
Proof.
  intros H; apply startswith_app in H as [u ->]; repeat split.
Qed.

Lemma skipn_nonempty {A} (j : nat) (l : list A) :
  (j < length l)%nat ->
  exists y ys, skipn j l = y :: ys /\ incl (y :: ys) l.
Proof.
  intros Hj.
  destruct (skipn j l) as [|y ys] eqn:E.
  - apply (f_equal (@length A)) in E.
    rewrite length_skipn in E; simpl in E; lia.
  - exists y, ys; split; [reflexivity|].
    intros z Hz; rewrite <- (firstn_skipn j l), E.
    apply in_or_app; now right.
Qed.

Lemma weekly_pattern_match (x : ascii) (body rest : str) :
  ~ In ";"%char (x :: body) ->
  Re.match_here CleanTrackerGrid.pat_WeeklyHabitRowContent
    (CleanTrackerGrid.start_marker ++ (x :: body)
     ++ nl :: "}"%char :: ";"%char :: rest)
  = Some (length CleanTrackerGrid.start_marker + length (x :: body) + 3)%nat.
Proof.
  intros Hno.
  change CleanTrackerGrid.pat_WeeklyHabitRowContent
    with (lits CleanTrackerGrid.start_marker
          ++ (Re.NotChr ";", Re.PlusLazy) :: lits [nl; "}"; ";"]%char).
  rewrite match_lits, startswith_refl_app.
  rewrite skipn_app, skipn_all, Nat.sub_diag; cbn [skipn app Re.match_here].
  change (x :: body ++ nl :: "}"%char :: ";"%char :: rest)
    with ((x :: body) ++ nl :: "}"%char :: ";"%char :: rest).
  rewrite (lazy_run_some (Re.NotChr ";")
             (Re.match_here (lits [nl; "}"; ";"]%char))
             (nl :: "}"%char :: ";"%char :: rest) 3).
  - simpl; f_equal; lia.
  - reflexivity.
  - now apply accepts_not.
  - intros j Hj.
    rewrite match_lits_only, skipn_app.
    replace (j - length (x :: body))%nat with O by lia; cbn [skipn].
    destruct (Py.startswith _ _) eqn:E; [exfalso | reflexivity].
    apply close_tail_shape in E as (_ & E1 & E2).
    destruct (skipn_nonempty j (x :: body) ltac:(lia))
      as (y & ys & Esk & Hincl).
    rewrite Esk in E1, E2.
    destruct ys as [|y2 [|y3 ys]]; simpl in E1, E2;
      try discriminate.
    injection E2 as ->.
    apply Hno, Hincl; right; right; now left.
Qed.

Lemma weekly_pattern_no_match (body rest : str) :
  ~ In ";"%char body ->
  (forall body0, body0 <> [] -> body <> body0 ++ [nl; "}"%char]) ->
  Re.match_here CleanTrackerGrid.pat_WeeklyHabitRowContent
    (CleanTrackerGrid.start_marker ++ body ++ ";"%char :: rest)
  = None.
Proof.
  intros Hno Hend.
  change CleanTrackerGrid.pat_WeeklyHabitRowContent
    with (lits CleanTrackerGrid.start_marker
          ++ (Re.NotChr ";", Re.PlusLazy) :: lits [nl; "}"; ";"]%char).
  rewrite match_lits, startswith_refl_app.
  rewrite skipn_app, skipn_all, Nat.sub_diag; cbn [skipn app Re.match_here].
  rewrite lazy_run_none; [reflexivity | now apply accepts_not | |].
  - intros c t' E; injection E as <- _; apply not_accepts_self.
  - intros j Hj.
    rewrite match_lits_only, skipn_app.
    replace (j - length body)%nat with O by lia; cbn [skipn].
    destruct (Py.startswith _ _) eqn:E; [exfalso | reflexivity].
    apply close_tail_shape in E as (E0 & E1 & E2).
    assert (Hsplit : body = firstn j body ++ skipn j body)
      by (symmetry; apply firstn_skipn).
    assert (Hincl : incl (skipn j body) body)
      by (intros z Hz; rewrite Hsplit; apply in_or_app; now right).
    destruct (skipn j body) as [|y [|y2 [|y3 ys]]];
      simpl in E0, E1, E2; try discriminate.
    + injection E0 as ->; injection E1 as ->.
      apply (Hend (firstn j body)); [|exact Hsplit].
      intros Hnil; apply (f_equal (@length ascii)) in Hnil.
      rewrite length_firstn in Hnil; simpl in Hnil; lia.
    + injection E2 as ->.
      apply Hno, Hincl; right; right; now left.
Qed.

End LazyPattern.

(** X14: the pattern of line 14 of [clean_tracker_grid.py] cannot cross a
    semicolon.  Behind the opening text it matches a block that holds no
    semicolon and is followed by a newline and ["};"], up to that ["};"].
    When the first semicolon behind the opening text is not the one of
    such a line-initial ["};"], because a statement inside the block ends
    in a semicolon, the pattern does not match there at all. *)
Theorem weekly_pattern_cannot_cross_semicolon :
  (forall (x : ascii) (body rest : str),
     ~ In ";"%char (x :: body) ->
     Re.match_here CleanTrackerGrid.pat_WeeklyHabitRowContent
       (CleanTrackerGrid.start_marker ++ (x :: body)
        ++ nl :: "}"%char :: ";"%char :: rest)
     = Some (length CleanTrackerGrid.start_marker
             + length (x :: body) + 3)%nat) /\
  (forall (body rest : str),
     ~ In ";"%char body ->
     (forall body0, body0 <> [] -> body <> body0 ++ [nl; "}"%char]) ->
     Re.match_here CleanTrackerGrid.pat_WeeklyHabitRowContent
       (CleanTrackerGrid.start_marker ++ body ++ ";"%char :: rest)
     = None).
Proof.
  split.
  - intros x body rest; apply weekly_pattern_match.
  - intros body rest; apply weekly_pattern_no_match.
Qed.

Lemma weekly_pattern_cannot_cross_semicolon_witness :
  Re.match_here CleanTrackerGrid.pat_WeeklyHabitRowContent
    MoreSamples.plain_row = Some 57%nat /\
  Re.match_here CleanTrackerGrid.pat_WeeklyHabitRowContent
    MoreSamples.row_with_statement = None.
Proof.
  destruct weekly_pattern_cannot_cross_semicolon as [Hsome Hnone].
  split.
  - refine (Hsome " "%char (lit "habit }) => (<Row />)") (lit "z") _).
    vm_compute; intuition discriminate.
  - refine (Hnone (lit " habit }) => { const x = 1")
              (nl :: lit "};") _ _).
    + vm_compute; intuition discriminate.
    + intros body0 _ E.
      apply (f_equal (@rev ascii)) in E.
      rewrite rev_app_distr in E; vm_compute in E; discriminate.
Defined.

(** ** [clean_habit_modal.py] on a file without its texts *)

Section NoAnchor.

Lemma isin_false (sub s : str) :
  Py.isin sub s = false -> Py.find s sub = -1.
Proof.
  unfold Py.isin; intros H.
  destruct (Z.eqb_spec (Py.find s sub) (-1)); [assumption | discriminate].
Qed.

(** A pattern with a literal head changes nothing where that text does
    not occur, and neither does [replace]. *)
Lemma sub_absent (p : str) (r : Re.regex) (repl content : str) :
  Py.find content p = -1 -> Re.sub (lits p ++ r) repl content = content.
Proof.
  intros Hnone; rewrite find_none in Hnone.
  unfold Re.sub.
  rewrite <- (app_nil_r content) at 1.
  rewrite scan_replace_copy.
  - simpl; rewrite match_lits.
    pose proof (Hnone (length content) (Nat.le_refl _)) as H.
    rewrite skipn_all in H; rewrite H; apply app_nil_r.
  - intros j Hj; rewrite app_nil_r, match_lits.
    rewrite Hnone by lia; reflexivity.
Qed.

Lemma replace_absent (content old new : str) :
  Py.find content old = -1 -> Py.replace content old new = content.
Proof.
  intros Hnone; rewrite find_none in Hnone.
  unfold Py.replace.
  rewrite <- (app_nil_r content) at 1.
  rewrite scan_replace_copy.
  - simpl.
    pose proof (Hnone (length content) (Nat.le_refl _)) as H.
    rewrite skipn_all in H; rewrite H; apply app_nil_r.
  - intros j Hj; rewrite app_nil_r.
    rewrite Hnone by lia; reflexivity.
Qed.

Lemma early_passes_absent (content : str) :
  Forall (fun a => Py.isin a content = false) habit_anchors ->
  CleanHabitModal.early_passes content = content.
Proof.
  intros H; unfold habit_anchors in H.
  repeat match goal with
         | H : Forall _ (_ :: _) |- _ =>
             let Hx := fresh "Hx" in
             inversion H as [|? ? Hx ?]; subst; clear H;
             apply isin_false in Hx
         end.
  unfold CleanHabitModal.early_passes.
  change CleanHabitModal.pat_toggleAssignedDay
    with (lits toggle_open
          ++ (Re.NotChr "}", Re.Plus) :: lits ("}"%char :: lit ";")).
  change CleanHabitModal.pat_daysOfWeek
    with (lits (lit "const daysOfWeek = ['S', 'M', 'T', 'W', 'T', 'F', 'S'];")
          ++ []).
  change CleanHabitModal.pat_assignedDays_branch
    with (lits branch_open
          ++ (Re.NotChr "}", Re.Plus) :: lits ("}"%char :: [])).
  do 3 rewrite (sub_absent _ _ _ content) by assumption.
  do 2 rewrite (replace_absent content) by assumption.
  reflexivity.
Qed.

End NoAnchor.

(** X15: on a file that holds none of the five texts the first passes of
    [clean_habit_modal.py] look for, those passes change nothing, so the
    file written is the blank-line pass of the marker-pair cut of the
    original (of the original itself when the markers are not found).
    With the markers missing too, the script changes white space only:
    the characters other than white space are the same before and after
    the run. *)
Theorem clean_habit_modal_without_its_texts :
  forall original : str,
    Forall (fun a => Py.isin a original = false) habit_anchors ->
    CleanHabitModal.early_passes original = original /\
    file (snd (run CleanHabitModal.main original))
    = CleanHabitModal.cleanup_blank_lines
        match marker_cut CleanHabitModal.start_marker
                CleanHabitModal.end_marker original with
        | Some cut => cut
        | None => original
        end /\
    (marker_cut CleanHabitModal.start_marker CleanHabitModal.end_marker
       original = None ->
     ink (file (snd (run CleanHabitModal.main original))) = ink original /\
     stdout (snd (run CleanHabitModal.main original))
     = [lit "Could not find Old Weekly Config Block markers";
        lit "Successfully cleaned AddHabitModal.tsx"]).
Proof.
  intros original Habsent.
  pose proof (early_passes_absent original Habsent) as Hearly.
  split; [exact Hearly|].
  rewrite clean_habit_modal_run; cbv zeta; rewrite Hearly.
  split.
  - destruct (marker_cut _ _ original); reflexivity.
  - intros ->; simpl; split; [|reflexivity].
    apply cleanup_ink_length.
Qed.

Lemma clean_habit_modal_without_its_texts_witness :
  file (snd (run CleanHabitModal.main Samples.example3))
  = CleanHabitModal.cleanup_blank_lines Samples.example3 /\
  ink (file (snd (run CleanHabitModal.main Samples.example3)))
  = ink Samples.example3.
Proof.
  destruct (clean_habit_modal_without_its_texts Samples.example3)
    as (_ & Hfile & Hink).
  - repeat constructor.
  - split; [exact Hfile | exact (proj1 (Hink eq_refl))].
Defined.

(** ** A second run through the fallback *)

Lemma fallback_second_run
    (original : str) (top : list str) (line : str) (rest : list str) :
  Py.readlines original = top ++ line :: rest ->
  Forall (fun l => has_marker l = false) (Py.readlines original) ->
  1200 < len top ->
  Py.isin FixTrackerGrid.fallback_text line = true ->
  (forall (k : nat) (l : str),
     nth_error top k = Some l -> 1200 < Z.of_nat k ->
     Py.isin FixTrackerGrid.fallback_text l = false) ->
  let once := file (snd (run FixTrackerGrid.main original)) in
  once = concat top ++ FixTrackerGrid.new_bottom /\
  file (snd (run FixTrackerGrid.main once))
    = concat top ++ [nl] ++ FixTrackerGrid.new_bottom.
Proof.
  intros Hlines Hnone Htop Hline Hskip once.
  destruct (fix_tracker_grid_fallback_run original top line rest
              Hlines Hnone Htop Hline Hskip) as (_ & _ & Honce & _).
  fold once in Honce.
  split; [exact Honce|].
  assert (Enb : Py.readlines FixTrackerGrid.new_bottom =
                [nl]
                :: (lit "                    {weeklyHabits.length > 0 && ("
                    ++ [nl])
                :: skipn 2 (Py.readlines FixTrackerGrid.new_bottom))
    by (vm_compute; reflexivity).
  assert (Hread : Py.readlines once
                  = top ++ Py.readlines FixTrackerGrid.new_bottom).
  { rewrite Honce.
    replace top with (firstn (length top) (Py.readlines original))
      by (rewrite Hlines, firstn_app, Nat.sub_diag, firstn_all; simpl;
          apply app_nil_r).
    apply readlines_prefix.
    rewrite Hlines, length_app; simpl; lia. }
  assert (Htopnone : Forall (fun l => has_marker l = false) top).
  { rewrite Hlines in Hnone; now apply Forall_app in Hnone as [H _]. }
  destruct (fix_tracker_grid_fallback_run once (top ++ [[nl]])
              (lit "                    {weeklyHabits.length > 0 && ("
               ++ [nl])
              (skipn 2 (Py.readlines FixTrackerGrid.new_bottom)))
    as (_ & _ & Hfile & _).
  - rewrite Hread, Enb at 1; rewrite <- app_assoc; reflexivity.
  - rewrite Hread; apply Forall_app; split; [exact Htopnone|].
    apply Forall_forall; intros l Hl.
    apply negb_true_iff.
    revert l Hl; apply forallb_forall.
    vm_compute; reflexivity.
  - rewrite len_app; unfold len at 2; simpl; lia.
  - vm_compute; reflexivity.
  - intros k l Hk Hlt.
    destruct (Nat.lt_ge_cases k (length top)) as [Hin | Hout].
    + rewrite nth_error_app1 in Hk by exact Hin.
      exact (Hskip k l Hk Hlt).
    + rewrite nth_error_app2 in Hk by exact Hout.
      destruct (k - length top)%nat as [|[|n]]; simpl in Hk;
        try discriminate.
      injection Hk as <-; vm_compute; reflexivity.
  - rewrite Hfile, concat_app; simpl.
    rewrite <- app_assoc; reflexivity.
Qed.

(** X16: through the fallback, [fix_tracker_grid.py] is not idempotent.
    When a run has found its cut-off line by the fallback, a run on the
    file it wrote finds the fallback text again, one line further down,
    in the second line of [new_bottom], and keeps the empty first line of
    [new_bottom] above it: every further run makes the file one newline
    longer. *)
Theorem fix_tracker_grid_fallback_rerun_adds_blank_line :
  forall (original : str) (top : list str) (line : str) (rest : list str),
    Py.readlines original = top ++ line :: rest ->
    Forall (fun l => has_marker l = false) (Py.readlines original) ->
    1200 < len top ->
    Py.isin FixTrackerGrid.fallback_text line = true ->
    (forall (k : nat) (l : str),
       nth_error top k = Some l -> 1200 < Z.of_nat k ->
       Py.isin FixTrackerGrid.fallback_text l = false) ->
    let once := file (snd (run FixTrackerGrid.main original)) in
    let twice := file (snd (run FixTrackerGrid.main once)) in
    once = concat top ++ FixTrackerGrid.new_bottom /\
    twice = concat top ++ [nl] ++ FixTrackerGrid.new_bottom /\
    len twice = len once + 1.
Proof.
  intros original top line rest Hlines Hnone Htop Hline Hskip once twice.
  destruct (fallback_second_run original top line rest
              Hlines Hnone Htop Hline Hskip) as [Honce Htwice].
  fold once in Honce, Htwice; fold twice in Htwice.
  repeat split; try assumption.
  rewrite Honce, Htwice, !len_app.
  change (len [nl]) with 1; lia.
Qed.

Lemma fix_tracker_grid_fallback_rerun_adds_blank_line_witness :
  let once := file (snd (run FixTrackerGrid.main MoreSamples.long_file)) in
  let twice := file (snd (run FixTrackerGrid.main once)) in
  len twice = len once + 1.
Proof.
  refine (proj2 (proj2
    (fix_tracker_grid_fallback_rerun_adds_blank_line
       MoreSamples.long_file MoreSamples.filler
       (lit "  {weeklyHabits.length > 0 && (" ++ [nl])
       [lit "old" ++ [nl]] _ _ _ _ _))).
  - vm_compute; reflexivity.
  - apply Forall_forall; intros l Hl.
    apply negb_true_iff.
    revert l Hl; apply forallb_forall.
    vm_compute; reflexivity.
  - vm_compute; reflexivity.
  - vm_compute; reflexivity.
  - intros k l Hk _.
    apply nth_error_In, repeat_spec in Hk; subst l.
    vm_compute; reflexivity.
Defined.

(** ** The cut with the markers the other way round *)

Lemma reversed_cut (content : str) (s e : Z) :
  0 <= e <= s -> s <= len content ->
  let between := Py.slice_from (Py.slice_to content s) e in
  Py.slice_to content s ++ Py.slice_from content e
  = Py.slice_to content e ++ between ++ between ++ Py.slice_from content s
  /\ len between = s - e.
Proof.
  intros He Hs between.
  assert (Hto : Py.slice_to content s = Py.slice_to content e ++ between).
  { unfold between.
    rewrite !slice_to_nat, slice_from_nat by lia.
    rewrite <- (firstn_skipn (Z.to_nat e) (firstn (Z.to_nat s) content)) at 1.
    f_equal.
    rewrite firstn_firstn; f_equal; lia. }
  assert (Hfrom : Py.slice_from content e
                  = between ++ Py.slice_from content s).
  { unfold between.
    rewrite !slice_from_nat, slice_to_nat by lia.
    rewrite <- (firstn_skipn (Z.to_nat s) content) at 1.
    rewrite skipn_app, length_firstn.
    replace (Z.to_nat e - Nat.min (Z.to_nat s) (length content))%nat
      with O by (unfold len in *; lia).
    reflexivity. }
  split.
  - rewrite Hfrom, Hto at 1; rewrite <- app_assoc; reflexivity.
  - unfold between.
    rewrite slice_from_nat, slice_to_nat by lia.
    unfold len in *; rewrite length_skipn, length_firstn; lia.
Qed.

(** X17: with the end marker first found at or before the start marker,
    the marker-pair cut removes nothing: it returns the buffer with the
    text that stands between the two offsets written twice, so the result
    is longer than the buffer by that text.  [clean_tracker_grid.py]
    writes exactly that to its target file. *)
Theorem marker_cut_with_end_marker_first_repeats_text :
  forall (start_marker end_marker content out : str),
    marker_cut start_marker end_marker content = Some out ->
    let s_idx := Py.find content start_marker in
    let e_idx := Py.find content end_marker in
    e_idx <= s_idx ->
    let between := Py.slice_from (Py.slice_to content s_idx) e_idx in
    out = Py.slice_to content e_idx ++ between ++ between
          ++ Py.slice_from content s_idx /\
    len between = s_idx - e_idx /\
    len out = len content + (s_idx - e_idx) /\
    (start_marker = CleanTrackerGrid.start_marker ->
     end_marker = CleanTrackerGrid.end_marker ->
     file (snd (run CleanTrackerGrid.main content)) = out).
Proof.
  intros sm em content out Hcut s e Hes between.
  destruct (marker_cut_inv _ _ _ _ Hcut) as (Hs & He & Hout).
  fold s e in Hs, He, Hout.
  destruct (find_range content sm) as [? | Hrs]; [contradiction|].
  destruct (find_range content em) as [? | Hre]; [contradiction|].
  fold s in Hrs; fold e in Hre.
  destruct (reversed_cut content s e ltac:(lia) ltac:(lia)) as [Heq Hlen].
  fold between in Heq, Hlen.
  split; [rewrite Hout; exact Heq|].
  split; [exact Hlen|].
  split.
  - rewrite Hout, len_app, len_slice_to, len_slice_from by lia; lia.
  - intros -> ->.
    destruct (clean_tracker_grid_run content) as [msgs ->].
    rewrite Hcut; reflexivity.
Qed.

Lemma marker_cut_with_end_marker_first_repeats_text_witness :
  let c := Samples.grid_reversed in
  file (snd (run CleanTrackerGrid.main c))
  = Py.slice_to c 48 ++ c /\
  len (Py.slice_to c 48 ++ c) = len c + (48 - 0).
Proof.
  pose proof (marker_cut_with_end_marker_first_repeats_text
                CleanTrackerGrid.start_marker CleanTrackerGrid.end_marker
                Samples.grid_reversed
                (Py.slice_to Samples.grid_reversed 48 ++ Samples.grid_reversed)
                eq_refl) as H.
  cbv zeta in H.
  change (Py.find Samples.grid_reversed CleanTrackerGrid.start_marker)
    with 48 in H.
  change (Py.find Samples.grid_reversed CleanTrackerGrid.end_marker)
    with 0 in H.
  destruct (H ltac:(lia)) as (_ & _ & Hlen & Hfile).
  split; [exact (Hfile eq_refl eq_refl) | exact Hlen].
Defined.

(** ** A second run of [clean_habit_modal.py] (claim C3) *)

Section SecondRun.
Import CleanHabitModal.











End SecondRun.



